(** * Verification of the seller-apis reconciliation, batching and paging code

    Shallow embedding of [seller.py] (Ozon client) and [market.py]
    (Yandex client).  Python strings are modelled as [String.string]
    holding their UTF-8 encoding.  Comparisons, [split(".")] and
    [re.sub("[^0-9]", "", ...)] only look at ASCII characters, and an ASCII
    byte never occurs inside a multi-byte UTF-8 sequence, so they work on
    the bytes as they are; [int()] reads non-ASCII white space and decimal
    digits too, and decodes the bytes into code points first. *)

From Stdlib Require Import String Ascii List ZArith Lia Bool Permutation.
Import ListNotations.
Open Scope string_scope.
Open Scope Z_scope.

(** ** Python builtins used by the code *)

(** An ASCII decimal digit, the class [[0-9]] of a regular expression. *)
Definition is_digit (c : ascii) : bool :=
  ((48 <=? nat_of_ascii c) && (nat_of_ascii c <=? 57))%nat.

Definition digit_val (c : ascii) : Z := Z.of_nat (nat_of_ascii c) - 48.

(** *** [int()] on a [str]

    CPython's [int(s)] ([PyLong_FromUnicodeObject]) first rewrites [s]
    code point by code point ([_PyUnicode_TransformDecimalAndSpaceToASCII]):
    a code point below 127 is kept, a Unicode white space becomes ' ', a
    Unicode decimal digit becomes the ASCII digit of its value, and any
    other code point becomes '?' and ends the text.  [PyLong_FromString]
    then reads that text in base 10: ASCII blanks, an optional sign, digits
    with single underscores between two of them, ASCII blanks, and nothing
    else; more than [sys.get_int_max_str_digits()] digits (4300 by default)
    raise [ValueError].  The Unicode tables are those of Python 3.11
    (Unicode 14.0). *)

(** The code points of a UTF-8 encoding.  The encoding of a [str] is
    always well formed; a malformed byte decodes to U+FFFD. *)
Fixpoint utf8_decode (l : list ascii) : list Z :=
  match l with
  | [] => []
  | b0 :: r =>
      let c0 := Z.of_nat (nat_of_ascii b0) in
      let cont b := Z.of_nat (nat_of_ascii b) - 0x80 in
      if c0 <? 0x80 then c0 :: utf8_decode r
      else if c0 <? 0xC0 then 0xFFFD :: utf8_decode r
      else if c0 <? 0xE0 then
        match r with
        | b1 :: r1 => ((c0 - 0xC0) * 0x40 + cont b1) :: utf8_decode r1
        | [] => [0xFFFD]
        end
      else if c0 <? 0xF0 then
        match r with
        | b1 :: b2 :: r2 =>
            ((c0 - 0xE0) * 0x1000 + cont b1 * 0x40 + cont b2) :: utf8_decode r2
        | _ => [0xFFFD]
        end
      else
        match r with
        | b1 :: b2 :: b3 :: r3 =>
            ((c0 - 0xF0) * 0x40000 + cont b1 * 0x1000 + cont b2 * 0x40 + cont b3)
              :: utf8_decode r3
        | _ => [0xFFFD]
        end
  end.

(** [Py_UNICODE_ISSPACE] above U+007F. *)
Definition unicode_isspace (c : Z) : bool :=
  (c =? 0x85) || (c =? 0xA0) || (c =? 0x1680)
  || (0x2000 <=? c) && (c <=? 0x200A)
  || (c =? 0x2028) || (c =? 0x2029) || (c =? 0x202F) || (c =? 0x205F)
  || (c =? 0x3000).

(** The digits zero of the Unicode decimal digit runs above U+007F; each
    is followed by the nine others. *)
Definition decimal_zeros : list Z :=
  [0x660; 0x6F0; 0x7C0; 0x966; 0x9E6; 0xA66; 0xAE6; 0xB66; 0xBE6; 0xC66;
   0xCE6; 0xD66; 0xDE6; 0xE50; 0xED0; 0xF20; 0x1040; 0x1090; 0x17E0;
   0x1810; 0x1946; 0x19D0; 0x1A80; 0x1A90; 0x1B50; 0x1BB0; 0x1C40; 0x1C50;
   0xA620; 0xA8D0; 0xA900; 0xA9D0; 0xA9F0; 0xAA50; 0xABF0; 0xFF10;
   0x104A0; 0x10D30; 0x11066; 0x110F0; 0x11136; 0x111D0; 0x112F0; 0x11450;
   0x114D0; 0x11650; 0x116C0; 0x11730; 0x118E0; 0x11950; 0x11C50; 0x11D50;
   0x11DA0; 0x16A60; 0x16AC0; 0x16B50; 0x1D7CE; 0x1D7D8; 0x1D7E2; 0x1D7EC;
   0x1D7F6; 0x1E140; 0x1E2F0; 0x1E950; 0x1FBF0].

(** [Py_UNICODE_TODECIMAL] above U+007F. *)
Definition unicode_todecimal (c : Z) : option Z :=
  match find (fun z => (z <=? c) && (c <? z + 10)) decimal_zeros with
  | Some z => Some (c - z)
  | None => None
  end.

(** [_PyUnicode_TransformDecimalAndSpaceToASCII] *)
Fixpoint transform_decimal_and_space (l : list Z) : list Z :=
  match l with
  | [] => []
  | c :: r =>
      if c <? 127 then c :: transform_decimal_and_space r
      else if unicode_isspace c then 32 :: transform_decimal_and_space r
      else match unicode_todecimal c with
           | Some d => (48 + d) :: transform_decimal_and_space r
           | None => [63]
           end
  end.

(** [Py_ISSPACE]: the ASCII blanks. *)
Definition py_isspace (c : Z) : bool := (9 <=? c) && (c <=? 13) || (c =? 32).

Fixpoint skip_spaces (l : list Z) : list Z :=
  match l with
  | c :: r => if py_isspace c then skip_spaces r else l
  | [] => []
  end.

Definition is_digit_cp (c : Z) : bool := (48 <=? c) && (c <=? 57).

(** The digits of a literal with single underscores between two of them:
    their value, how many there are, and the text after them; [None] when
    the text does not start with a digit or an underscore is not followed
    by a digit.  [prev] records that the previous character was a digit. *)
Fixpoint scan_digits (l : list Z) (acc : Z) (n : nat) (prev : bool)
  : option (Z * nat * list Z) :=
  match l with
  | c :: r =>
      if is_digit_cp c then scan_digits r (10 * acc + (c - 48)) (S n) true
      else if (c =? 95) && prev then scan_digits r acc n false
      else if prev then Some (acc, n, l) else None
  | [] => if prev then Some (acc, n, []) else None
  end.

(** The default [sys.get_int_max_str_digits()]. *)
Definition max_str_digits : nat := 4300.

(** [PyLong_FromString(s, &end, 10)] followed by the check that it read
    the whole text. *)
Definition long_from_string (l : list Z) : option Z :=
  let l1 := skip_spaces l in
  let '(sign, l2) :=
    match l1 with
    | c :: r => if c =? 43 then (1, r) else if c =? 45 then (-1, r) else (1, l1)
    | [] => (1, l1)
    end in
  match scan_digits l2 0 0 false with
  | None => None
  | Some (v, n, rest) =>
      if (max_str_digits <? n)%nat then None
      else match skip_spaces rest with
           | [] => Some (sign * v)
           | _ => None
           end
  end.

(** [int(s)] for a [str] argument: [None] is the [ValueError]. *)
Definition py_int (s : string) : option Z :=
  long_from_string
    (transform_decimal_and_space (utf8_decode (list_ascii_of_string s))).

Fixpoint n_repr_aux (fuel : nat) (n : N) (acc : string) : string :=
  match fuel with
  | O => acc
  | S f =>
      let acc' := String (ascii_of_N (48 + N.modulo n 10)) acc in
      if (N.div n 10 =? 0)%N then acc' else n_repr_aux f (N.div n 10) acc'
  end.

(** [str(z)] for an [int].  [str] refuses ints of more than 4300 digits;
    it is only applied here to spreadsheet cells, which stay far below
    (see [cell]). *)
Definition z_repr (z : Z) : string :=
  match z with
  | Z0 => "0"
  | Zpos p => n_repr_aux (Pos.size_nat p) (Npos p) ""
  | Zneg p => String "-" (n_repr_aux (Pos.size_nat p) (Npos p) "")
  end.

(** [x in xs] on a list of strings. *)
Definition py_in (x : string) (xs : list string) : bool :=
  existsb (String.eqb x) xs.

(** The list with the first occurrence of [x] removed, [None] when absent. *)
Fixpoint remove_first (x : string) (l : list string) : option (list string) :=
  match l with
  | [] => None
  | y :: r =>
      if String.eqb x y then Some r
      else option_map (cons y) (remove_first x r)
  end.

(** ** Feed records

    A row of the spreadsheet as [pd.read_excel(...).to_dict("records")]
    produces it: the cells the code reads are ints or strings.  An int
    cell comes from a numeric Excel cell, an IEEE double that pandas turns
    into an int when it is integral, so its absolute value is below
    [2 ^ 1024]. *)

Inductive cell :=
| CInt (z : Z) (Hz : Z.abs z < 2 ^ 1024)
| CStr (s : string).

(** [str(cell)] *)
Definition py_str (v : cell) : string :=
  match v with
  | CInt z _ => z_repr z
  | CStr s => s
  end.

(** [int(cell)] *)
Definition py_int_cell (v : cell) : option Z :=
  match v with
  | CInt z _ => Some z
  | CStr s => py_int s
  end.

(** The columns "Код", "Количество" and "Цена". *)
Record watch := mk_watch {
  code : cell;
  quantity : cell;
  price : string
}.

(** ** Exceptions and the shared [offer_ids] list

    [create_stocks] mutates the [offer_ids] list its caller passes in, and
    may raise half-way.  A computation reads and writes that list and either
    returns ([Some]) or raises ([None]); the list is returned in both cases,
    as the caller still holds it after an exception. *)

Definition M (A : Type) : Type := list string -> option A * list string.

Definition ret {A} (a : A) : M A := fun s => (Some a, s).
Definition raise {A} : M A := fun s => (None, s).
Definition bind {A B} (m : M A) (k : A -> M B) : M B :=
  fun s => match m s with
           | (Some a, s') => k a s'
           | (None, s') => (None, s')
           end.
Definition get : M (list string) := fun s => (Some s, s).

Notation "x <- m ;; k" := (bind m (fun x => k))
  (at level 61, m at next level, right associativity).

(** [offer_ids.remove(x)]: [ValueError] when [x] is absent. *)
Definition list_remove (x : string) : M unit :=
  fun s => match remove_first x s with
           | Some s' => (Some tt, s')
           | None => (None, s)
           end.

(** The stock-quantization rule shared by both [create_stocks]. *)
Definition quantize (q : cell) : M Z :=
  let count := py_str q in
  if String.eqb count ">10" then ret 100
  else if String.eqb count "1" then ret 0
  else match py_int_cell q with
       | Some z => ret z
       | None => raise
       end.

(** ** seller.py *)
Module Seller.

Record stock_entry := mk_stock { offer_id : string; stock : Z }.

Record price_entry := mk_price {
  auto_action_enabled : string;
  currency_code : string;
  p_offer_id : string;
  old_price : string;
  p_price : string
}.

(** The first loop of [create_stocks]. *)
Fixpoint stocks_loop (feed : list watch) : M (list stock_entry) :=
  match feed with
  | [] => ret []
  | w :: rest =>
      ids <- get ;;
      if py_in (py_str (code w)) ids then
        st <- quantize (quantity w) ;;
        _ <- list_remove (py_str (code w)) ;;
        tl <- stocks_loop rest ;;
        ret (mk_stock (py_str (code w)) st :: tl)
      else stocks_loop rest
  end.

Definition create_stocks (feed : list watch) : M (list stock_entry) :=
  matched <- stocks_loop feed ;;
  ids <- get ;;
  ret (matched ++ map (fun i => mk_stock i 0) ids)%list.

(** [price.split(".")] *)
Fixpoint split_on (sep : ascii) (s : string) : list string :=
  match s with
  | EmptyString => [""]
  | String c r =>
      let pieces := split_on sep r in
      if Ascii.eqb c sep then "" :: pieces
      else match pieces with
           | p :: ps => String c p :: ps
           | [] => [String c ""]
           end
  end.

(** [re.sub("[^0-9]", "", s)] *)
Fixpoint keep_digits (s : string) : string :=
  match s with
  | EmptyString => EmptyString
  | String c r => if is_digit c then String c (keep_digits r) else keep_digits r
  end.

Definition price_conversion (price : string) : string :=
  keep_digits (nth 0 (split_on "."%char price) "").

(** [create_prices] only reads [offer_ids]. *)
Fixpoint create_prices (feed : list watch) : M (list price_entry) :=
  match feed with
  | [] => ret []
  | w :: rest =>
      ids <- get ;;
      if py_in (py_str (code w)) ids then
        tl <- create_prices rest ;;
        ret (mk_price "UNKNOWN" "RUB" (py_str (code w)) "0"
               (price_conversion (price w)) :: tl)
      else create_prices rest
  end.

(** [divide(lst, n)]: [range(0, len(lst), n)] raises [ValueError] when
    [n = 0]; every chunk is the slice [lst[i : i + n]]. *)
Fixpoint range_from (fuel : nat) (i stop step : Z) : list Z :=
  match fuel with
  | O => []
  | S f =>
      if (if 0 <? step then i <? stop else stop <? i)
      then i :: range_from f (i + step) stop step
      else []
  end.

Definition py_range (start stop step : Z) : option (list Z) :=
  if step =? 0 then None
  else Some (range_from (Z.to_nat (Z.abs (stop - start))) start stop step).

(** Index normalisation of a slice bound: negative counts from the end,
    then clamped to [0, len]. *)
Definition slice_index (len i : Z) : Z :=
  let j := if i <? 0 then i + len else i in
  Z.max 0 (Z.min j len).

Definition py_slice {A} (l : list A) (i j : Z) : list A :=
  let len := Z.of_nat (length l) in
  let a := slice_index len i in
  let b := slice_index len j in
  firstn (Z.to_nat (b - a)) (skipn (Z.to_nat a) l).

Definition divide {A} (lst : list A) (n : Z) : option (list (list A)) :=
  option_map (map (fun i => py_slice lst i (i + n)))
             (py_range 0 (Z.of_nat (length lst)) n).

End Seller.

(** ** market.py *)
Module Market.

Record item := mk_item { count : Z; type_ : string; updatedAt : string }.

Record stock_entry := mk_stock {
  sku : string;
  warehouseId : string;
  items : list item
}.

Record price_entry := mk_price { id : string; value : Z; currencyId : string }.

(** The first loop of [create_stocks]; [date] is the run's UTC timestamp. *)
Fixpoint stocks_loop (feed : list watch) (warehouse_id date : string)
  : M (list stock_entry) :=
  match feed with
  | [] => ret []
  | w :: rest =>
      ids <- get ;;
      if py_in (py_str (code w)) ids then
        st <- quantize (quantity w) ;;
        _ <- list_remove (py_str (code w)) ;;
        tl <- stocks_loop rest warehouse_id date ;;
        ret (mk_stock (py_str (code w)) warehouse_id
               [mk_item st "FIT" date] :: tl)
      else stocks_loop rest warehouse_id date
  end.

Definition create_stocks (feed : list watch) (warehouse_id date : string)
  : M (list stock_entry) :=
  matched <- stocks_loop feed warehouse_id date ;;
  ids <- get ;;
  ret (matched ++ map (fun i => mk_stock i warehouse_id
                                  [mk_item 0 "FIT" date]) ids)%list.

(** [int(price_conversion(...))] raises when [int()] refuses the result:
    an empty one, or one of more than 4300 digits. *)
Fixpoint create_prices (feed : list watch) : M (list price_entry) :=
  match feed with
  | [] => ret []
  | w :: rest =>
      ids <- get ;;
      if py_in (py_str (code w)) ids then
        match py_int (Seller.price_conversion (price w)) with
        | Some v =>
            tl <- create_prices rest ;;
            ret (mk_price (py_str (code w)) v "RUR" :: tl)
        | None => raise
        end
      else create_prices rest
  end.

End Market.

(** ** [download_stock]

    The working directory is the list of file names present in it.  What
    the request and the unzip give is an input: [FetchFailed] when
    [session.get] or [raise_for_status] raises (nothing is written);
    [ExtractFailed written] when opening the archive or [extractall(".")]
    raises after writing the members [written] (none when the archive
    cannot be opened, the members before the failing one otherwise);
    [Extracted members] when every member is written.  The outcome of
    [pd.read_excel] on an existing file is the parser's, an input too:
    [None] when it raises. *)
Module Download.

Inductive extraction :=
| FetchFailed
| ExtractFailed (written : list string)
| Extracted (members : list string).

Definition excel_file := "ostatki.xls".

(** [os.remove("./ostatki.xls")] *)
Definition fs_remove (name : string) (fs : list string) : list string :=
  filter (fun f => negb (String.eqb f name)) fs.

Definition download_stock (response : extraction)
  (parsed : option (list watch)) (fs : list string)
  : option (list watch) * list string :=
  match response with
  | FetchFailed => (None, fs)
  | ExtractFailed written => (None, (written ++ fs)%list)
  | Extracted members =>
      let fs1 := (members ++ fs)%list in
      if negb (py_in excel_file fs1) then (None, fs1)
      else match parsed with
           | None => (None, fs1)
           | Some rows => (Some rows, fs_remove excel_file fs1)
           end
  end.

End Download.

(** ** Paging loops of the two [get_offer_ids]

    The server's behaviour is any function from the index of a request and
    the token it carries to the page returned.  [fuel] bounds the number of
    requests: [None] means the loop is still running after [fuel] of them. *)
Section Paging.
Variables (Page Tok : Type).
Variable server : nat -> Tok -> Page.
Variable page_items : Page -> list string.
Variable next_token : Page -> Tok.
(** the [break] test, on the page and the products accumulated so far *)
Variable stop : Page -> list string -> bool.

Fixpoint paging_loop (fuel : nat) (k : nat) (tok : Tok) (acc : list string)
  : option (nat * list string) :=
  match fuel with
  | O => None
  | S f =>
      let p := server k tok in
      let acc' := (acc ++ page_items p)%list in
      if stop p acc' then Some (S k, acc')
      else paging_loop f (S k) (next_token p) acc'
  end.

(** The token sent and the products accumulated before request [k]. *)
Fixpoint paging_state (init : Tok) (k : nat) : Tok * list string :=
  match k with
  | O => (init, [])
  | S j =>
      let (tok, acc) := paging_state init j in
      let p := server j tok in
      (next_token p, acc ++ page_items p)%list
  end.

(** The termination signal is raised by the answer to request [k]. *)
Definition signal_at (init : Tok) (k : nat) : bool :=
  let (tok, acc) := paging_state init k in
  let p := server k tok in
  stop p (acc ++ page_items p)%list.

End Paging.

Arguments paging_loop {Page Tok}.
Arguments paging_state {Page Tok}.
Arguments signal_at {Page Tok}.

Module Ozon.

Record page := mk_page {
  items : list string;  (** the [offer_id] of each product of "items" *)
  total : option Z;
  last_id : string
}.

(** [total == len(product_list)]; a missing total compares unequal. *)
Definition total_reached (p : page) (product_list : list string) : bool :=
  match total p with
  | Some t => t =? Z.of_nat (length product_list)
  | None => false
  end.

Definition get_offer_ids (server : nat -> string -> page) (fuel : nat)
  : option (nat * list string) :=
  paging_loop server items last_id total_reached fuel 0 "" [].

(** The answer to request [j] reports a total equal to the number of
    products accumulated with it. *)
Definition stop_signal (server : nat -> string -> page) (j : nat) : bool :=
  signal_at server items last_id total_reached "" j.

(** The products accumulated from the first [j] answers. *)
Definition products_until (server : nat -> string -> page) (j : nat) : list string :=
  snd (paging_state server items last_id "" j).

End Ozon.

Module Yandex.

Record page := mk_page {
  offerMappingEntries : list string;  (** each entry's offer.shopSku *)
  nextPageToken : option string
}.

(** [not page]: true for [None] and for [""]. *)
Definition no_more_pages (p : page) (_ : list string) : bool :=
  match nextPageToken p with
  | None => true
  | Some t => String.eqb t ""
  end.

(** The token sent is [page]; [None] stands for Python's [None]. *)
Definition get_offer_ids (server : nat -> option string -> page) (fuel : nat)
  : option (nat * list string) :=
  paging_loop server offerMappingEntries nextPageToken no_more_pages
    fuel 0 (Some "") [].

(** The answer to request [j] has an empty or absent [nextPageToken]. *)
Definition stop_signal (server : nat -> option string -> page) (j : nat) : bool :=
  signal_at server offerMappingEntries nextPageToken no_more_pages (Some "") j.

Definition products_until (server : nat -> option string -> page) (j : nat)
  : list string :=
  snd (paging_state server offerMappingEntries nextPageToken (Some "") j).

End Yandex.

(** ** Pushing batches, the upload functions and [main]

    The network answers the [k]-th update request of a run (a call of
    [update_stocks] or [update_price]) with [ok k = true] when
    [raise_for_status] lets it pass, and raises otherwise (a bad status, a
    [ConnectionError] or a [ReadTimeout]).  The listing [get_offer_ids] is
    given by what it returned ([Some ids]) or that it raised ([None]);
    likewise the feed [download_stock] returned.  An [async def] upload
    function is modelled by its body, as it runs once awaited. *)

(** [for batch in list(divide(...)): update_...(batch, ...)]: the batches
    sent, in order, and whether the loop ran to its end.  A failing request
    has been sent before its response raises. *)
Fixpoint push_batches {A} (ok : nat -> bool) (k : nat) (batches : list A)
  : list A * bool :=
  match batches with
  | [] => ([], true)
  | b :: bs =>
      if ok k then
        let (sent, fine) := push_batches ok (S k) bs in (b :: sent, fine)
      else ([b], false)
  end.

(** How [main] ends: normally, in one of its [except] clauses (which print
    and return), or by an exception leaving it. *)
Inductive outcome := Completed | Caught | Raised.

Module SellerRun.

Inductive request :=
| UpdateStocks (batch : list Seller.stock_entry)
| UpdatePrice (batch : list Seller.price_entry).

(** [upload_prices]: the batches sent and, when it returns, [prices]. *)
Definition upload_prices (feed : list watch) (listed : option (list string))
  (ok : nat -> bool)
  : list (list Seller.price_entry) * option (list Seller.price_entry) :=
  match listed with
  | None => ([], None)
  | Some ids =>
      match fst (Seller.create_prices feed ids) with
      | None => ([], None)
      | Some prices =>
          match Seller.divide prices 1000 with
          | None => ([], None)
          | Some bs =>
              let (sent, fine) := push_batches ok 0 bs in
              (sent, if fine then Some prices else None)
          end
      end
  end.

(** [stock.get("stock") != 0] *)
Definition nonzero_stock (s : Seller.stock_entry) : bool :=
  negb (Seller.stock s =? 0).

(** [upload_stocks]: the batches sent and, when it returns, the pair
    [(not_empty, stocks)]. *)
Definition upload_stocks (feed : list watch) (listed : option (list string))
  (ok : nat -> bool)
  : list (list Seller.stock_entry)
    * option (list Seller.stock_entry * list Seller.stock_entry) :=
  match listed with
  | None => ([], None)
  | Some ids =>
      match fst (Seller.create_stocks feed ids) with
      | None => ([], None)
      | Some stocks =>
          match Seller.divide stocks 100 with
          | None => ([], None)
          | Some bs =>
              let (sent, fine) := push_batches ok 0 bs in
              (sent, if fine then Some (filter nonzero_stock stocks, stocks)
                     else None)
          end
      end
  end.

(** [main]: the requests sent and how it ends.  [create_prices] runs on the
    [offer_ids] list object [create_stocks] has just mutated; every exception
    of the [try] block is caught. *)
Definition main (listed : option (list string)) (feed : option (list watch))
  (ok : nat -> bool) : list request * outcome :=
  match listed, feed with
  | Some ids, Some feed =>
      let (r, ids') := Seller.create_stocks feed ids in
      match r with
      | None => ([], Caught)
      | Some stocks =>
          match Seller.divide stocks 100 with
          | None => ([], Caught)
          | Some bs =>
              let (sent, fine) := push_batches ok 0 bs in
              let trace := map UpdateStocks sent in
              if negb fine then (trace, Caught)
              else
                match fst (Seller.create_prices feed ids') with
                | None => (trace, Caught)
                | Some prices =>
                    match Seller.divide prices 900 with
                    | None => (trace, Caught)
                    | Some pbs =>
                        let (psent, pfine) := push_batches ok (length bs) pbs in
                        ((trace ++ map UpdatePrice psent)%list,
                         if pfine then Completed else Caught)
                    end
                end
          end
      end
  | _, _ => ([], Caught)
  end.

End SellerRun.

Module MarketRun.

Inductive request :=
| UpdateStocks (campaign_id : string) (batch : list Market.stock_entry)
| UpdatePrice (campaign_id : string) (batch : list Market.price_entry).

(** [upload_prices]: the requests sent and, when it returns, [prices]. *)
Definition upload_prices (feed : list watch) (listed : option (list string))
  (campaign_id : string) (ok : nat -> bool)
  : list request * option (list Market.price_entry) :=
  match listed with
  | None => ([], None)
  | Some ids =>
      match fst (Market.create_prices feed ids) with
      | None => ([], None)
      | Some prices =>
          match Seller.divide prices 500 with
          | None => ([], None)
          | Some bs =>
              let (sent, fine) := push_batches ok 0 bs in
              (map (UpdatePrice campaign_id) sent,
               if fine then Some prices else None)
          end
      end
  end.

(** [filter(lambda stock: stock.get("items")[0].get("count") != 0, stocks)];
    [None] is the [IndexError] of an entry without items. *)
Fixpoint not_empty (stocks : list Market.stock_entry)
  : option (list Market.stock_entry) :=
  match stocks with
  | [] => Some []
  | s :: rest =>
      match Market.items s with
      | [] => None
      | it :: _ =>
          match not_empty rest with
          | None => None
          | Some r => Some (if negb (Market.count it =? 0) then s :: r else r)
          end
      end
  end.

(** [upload_stocks]: the requests sent and, when it returns, the pair
    [(not_empty, stocks)]; [date] is the timestamp [create_stocks] takes. *)
Definition upload_stocks (feed : list watch) (listed : option (list string))
  (campaign_id warehouse_id date : string) (ok : nat -> bool)
  : list request * option (list Market.stock_entry * list Market.stock_entry) :=
  match listed with
  | None => ([], None)
  | Some ids =>
      match fst (Market.create_stocks feed warehouse_id date ids) with
      | None => ([], None)
      | Some stocks =>
          match Seller.divide stocks 2000 with
          | None => ([], None)
          | Some bs =>
              let (sent, fine) := push_batches ok 0 bs in
              (map (UpdateStocks campaign_id) sent,
               if fine then
                 match not_empty stocks with
                 | Some ne => Some (ne, stocks)
                 | None => None
                 end
               else None)
          end
      end
  end.

(** Calling an [async def] without [await] only builds a coroutine object:
    its body is held, not run. *)
Record coroutine (A : Type) := mk_coroutine { co_body : unit -> A }.

Arguments mk_coroutine {A}.

(** One campaign of [main]: list, build the stocks, push them in batches of
    2000 from request [k] on, then the un-awaited [upload_prices(...)] call
    ([listed_prices] is what its own [get_offer_ids] would return).  The
    requests sent and whether the block got to its end. *)
Definition campaign (feed : list watch) (listed listed_prices : option (list string))
  (campaign_id warehouse_id date : string) (ok : nat -> bool) (k : nat)
  : list request * bool :=
  match listed with
  | None => ([], false)
  | Some ids =>
      match fst (Market.create_stocks feed warehouse_id date ids) with
      | None => ([], false)
      | Some stocks =>
          match Seller.divide stocks 2000 with
          | None => ([], false)
          | Some bs =>
              let (sent, fine) := push_batches ok k bs in
              if negb fine then (map (UpdateStocks campaign_id) sent, false)
              else
                let _ := mk_coroutine
                           (fun _ => upload_prices feed listed_prices campaign_id ok) in
                (map (UpdateStocks campaign_id) sent, true)
          end
      end
  end.

(** [main]: [download_stock] runs outside the [try] block; then the FBS
    campaign, then the DBS one. *)
Definition main (feed : option (list watch))
  (listed_fbs listed_fbs_prices listed_dbs listed_dbs_prices : option (list string))
  (campaign_fbs_id campaign_dbs_id warehouse_fbs_id warehouse_dbs_id : string)
  (date_fbs date_dbs : string) (ok : nat -> bool) : list request * outcome :=
  match feed with
  | None => ([], Raised)
  | Some feed =>
      let (t1, fine1) := campaign feed listed_fbs listed_fbs_prices
                           campaign_fbs_id warehouse_fbs_id date_fbs ok 0 in
      if negb fine1 then (t1, Caught)
      else
        let (t2, fine2) := campaign feed listed_dbs listed_dbs_prices
                             campaign_dbs_id warehouse_dbs_id date_dbs ok
                             (length t1) in
        ((t1 ++ t2)%list, if fine2 then Completed else Caught)
  end.

End MarketRun.

(** * Properties *)

(** ** Auxiliary definitions for the proofs *)

Definition codes (feed : list watch) : list string :=
  map (fun w => py_str (code w)) feed.

Definition quantize_value (q : cell) : option Z := fst (quantize q []).

(** The price entry [create_prices] builds for a record. *)
Definition seller_price_of (w : watch) : Seller.price_entry :=
  Seller.mk_price "UNKNOWN" "RUB" (py_str (code w)) "0"
    (Seller.price_conversion (price w)).

(** Two records of the feed carrying one code. *)
Definition feed_dup : list watch :=
  [mk_watch (CStr "A") (CStr ">10") "100.00";
   mk_watch (CStr "A") (CStr "5") "90.00"].

(** The feed of the reconciliation example of the spec. *)
Definition feed_ab : list watch :=
  [mk_watch (CStr "A") (CStr ">10") "100.00";
   mk_watch (CStr "B") (CStr "1") "50.00"].

(** The Yandex shape of an Ozon stock entry. *)
Definition to_market (warehouse_id date : string) (e : Seller.stock_entry)
  : Market.stock_entry :=
  Market.mk_stock (Seller.offer_id e) warehouse_id
    [Market.mk_item (Seller.stock e) "FIT" date].

(** The chunk [divide] yields at index [j]. *)
Definition chunk_at {A} (lst : list A) (n : nat) (j : Z) : list A :=
  Seller.py_slice lst j (j + Z.of_nat n).

(** What the chunks produced from index [i] on satisfy; [m] is the number
    of elements left from [i]. *)
Definition chunks_ok {A} (lst : list A) (n : nat) (i : nat) (cs : list (list A))
  : Prop :=
  let m := (length lst - i)%nat in
  concat cs = skipn i lst /\
  Forall (fun c => length c = n) (removelast cs) /\
  (m = 0%nat -> cs = []) /\
  (m <> 0%nat ->
     length (last cs []) = if (m mod n =? 0)%nat then n else (m mod n)%nat) /\
  length cs = ((m + n - 1) / n)%nat.

(** An Ozon server answering two pages of a catalogue of three products. *)
Definition ozon_two_pages (k : nat) (_ : string) : Ozon.page :=
  match k with
  | O => Ozon.mk_page ["a"; "b"] (Some 3) "b"
  | S _ => Ozon.mk_page ["c"] (Some 3) "c"
  end.

(** A Yandex server whose second page carries no [nextPageToken]. *)
Definition yandex_two_pages (k : nat) (_ : option string) : Yandex.page :=
  match k with
  | O => Yandex.mk_page ["x"] (Some "t1")
  | S _ => Yandex.mk_page ["y"] None
  end.

(** [l1] is [l2] with some elements dropped, the rest in order. *)
Inductive subseq {A} : list A -> list A -> Prop :=
| subseq_nil : subseq [] []
| subseq_keep x l1 l2 : subseq l1 l2 -> subseq (x :: l1) (x :: l2)
| subseq_drop x l1 l2 : subseq l1 l2 -> subseq l1 (x :: l2).


(** The value of a string of decimal digits, as [scan_digits] accumulates it. *)
Definition digit_step (a : Z) (c : ascii) : Z := 10 * a + digit_val c.

Definition digits_value (l : list ascii) : Z := fold_left digit_step l 0.

(** A cell replaced by the string [str()] gives for it. *)
Definition str_cell (v : cell) : cell := CStr (py_str v).

(** A feed record whose code and quantity cells are read as text. *)
Definition as_text (w : watch) : watch :=
  mk_watch (str_cell (code w)) (str_cell (quantity w)) (price w).

(** The Yandex price entry built for a record whose converted price parses. *)
Definition market_price_of (w : watch) : Market.price_entry :=
  Market.mk_price (py_str (code w))
    (digits_value (list_ascii_of_string (Seller.price_conversion (price w)))) "RUR".

(** [int()] reads the converted price of the record. *)
Definition price_parses (w : watch) : bool :=
  match py_int (Seller.price_conversion (price w)) with
  | Some _ => true
  | None => false
  end.

(** The quantity "\xa05": a no-break space, then "5" (bytes C2 A0 35). *)
Definition qty_nbsp_5 : string := String "194"%char (String "160"%char "5").

(** The quantity "\u0663", ARABIC-INDIC DIGIT THREE (bytes D9 A3). *)
Definition qty_arabic_3 : string := String "217"%char (String "163"%char "").

(** A quantity of 4301 digits "1". *)
Definition qty_4301_digits : string := string_of_list_ascii (repeat "1"%char 4301).

(** Known identifiers "0" to "247". *)
Definition ids_248 : list string := map (fun n => z_repr (Z.of_nat n)) (seq 0 248).

(** The stock updates of [feed_ab] against "A", "B" and [ids_248], and their
    three batches of at most 100. *)
Definition stocks_250 : list Seller.stock_entry :=
  Seller.mk_stock "A" 100 :: Seller.mk_stock "B" 0
    :: map (fun i => Seller.mk_stock i 0) ids_248.

Definition batches_250 : list (list Seller.stock_entry) :=
  [firstn 100 stocks_250; firstn 100 (skipn 100 stocks_250); skipn 200 stocks_250].

(** A network accepting the first request only. *)
Definition first_ok (k : nat) : bool := Nat.eqb k 0.

(** A network accepting every request. *)
Definition all_ok (_ : nat) : bool := true.

(** An Ozon server that never reports a total. *)
Definition ozon_no_total (_ : nat) (_ : string) : Ozon.page :=
  Ozon.mk_page ["a"] None "a".

(** A Yandex server that always announces a further page. *)
Definition yandex_endless (_ : nat) (_ : option string) : Yandex.page :=
  Yandex.mk_page ["x"] (Some "t").

(** ** Lists of identifiers *)

Lemma py_in_In x l : py_in x l = true <-> In x l.
Proof.
  unfold py_in; rewrite existsb_exists; split.
  - intros [y [Hy Heq]]; apply String.eqb_eq in Heq; now subst.
  - intros H; exists x; split; [exact H | apply String.eqb_refl].
Qed.

Lemma py_in_false x l : py_in x l = false <-> ~ In x l.
Proof.
  rewrite <- py_in_In; destruct (py_in x l); split; congruence.
Qed.

Lemma remove_first_perm x l r :
  remove_first x l = Some r -> Permutation l (x :: r).
Proof.
  revert r; induction l as [|y l IH]; intros r H; cbn in H; [discriminate|].
  destruct (String.eqb_spec x y) as [->|Hne].
  - injection H as <-; reflexivity.
  - destruct (remove_first x l) as [r'|] eqn:E; cbn in H; [|discriminate].
    injection H as <-.
    rewrite (IH r' eq_refl); apply perm_swap.
Qed.

Lemma remove_first_In x l : In x l -> exists r, remove_first x l = Some r.
Proof.
  induction l as [|y l IH]; intros H; [destruct H|]; cbn.
  destruct (String.eqb_spec x y) as [->|Hne]; [eauto|].
  destruct H as [->|H]; [congruence|].
  destruct (IH H) as [r ->]; cbn; eauto.
Qed.

Lemma remove_first_NoDup x l r :
  NoDup l -> remove_first x l = Some r ->
  r = filter (fun i => negb (String.eqb i x)) l.
Proof.
  revert r; induction l as [|y l IH]; intros r Hnd H; cbn in H; [discriminate|].
  inversion Hnd as [|? ? Hy Hnd']; subst.
  destruct (String.eqb_spec x y) as [->|Hne]; cbn.
  - injection H as <-; rewrite String.eqb_refl; cbn.
    symmetry; apply forallb_filter_id, forallb_forall.
    intros i Hi; destruct (String.eqb_spec i y); [subst; contradiction|reflexivity].
  - destruct (remove_first x l) as [r'|] eqn:E; cbn in H; [|discriminate].
    injection H as <-.
    destruct (String.eqb_spec y x); [congruence|]; cbn.
    now rewrite (IH r' Hnd' eq_refl).
Qed.

(** ** The monad *)

Lemma quantize_state q s : quantize q s = (quantize_value q, s).
Proof.
  unfold quantize_value, quantize.
  destruct (String.eqb _ ">10"); [reflexivity|].
  destruct (String.eqb _ "1"); [reflexivity|].
  destruct (py_int_cell q); reflexivity.
Qed.

(** Unfold one iteration of a loop written in [M]. *)
Ltac step_M H :=
  unfold bind, get, ret, raise, list_remove in H; cbn beta iota in H;
  try rewrite quantize_state in H.

Lemma stocks_loop_perm feed : forall ids ms ids',
  Seller.stocks_loop feed ids = (Some ms, ids') ->
  Permutation ids (map Seller.offer_id ms ++ ids').
Proof.
  induction feed as [|w rest IH]; intros ids ms ids' H; cbn in H.
  - injection H as <- <-; reflexivity.
  - step_M H.
    destruct (py_in (py_str (code w)) ids) eqn:Hin; [|exact (IH _ _ _ H)].
    step_M H.
    destruct (quantize_value (quantity w)) as [v|]; [|discriminate].
    destruct (remove_first (py_str (code w)) ids) as [r|] eqn:Hr; [|discriminate].
    destruct (Seller.stocks_loop rest r) as [[tl|] s''] eqn:Hl; [|discriminate].
    injection H as <- <-; cbn.
    rewrite (remove_first_perm _ _ _ Hr).
    apply perm_skip, (IH _ _ _ Hl).
Qed.

Lemma filter_filter {A} (f g : A -> bool) l :
  filter f (filter g l) = filter (fun x => g x && f x) l.
Proof.
  induction l as [|x l IH]; cbn; [reflexivity|].
  destruct (g x); cbn; [destruct (f x); cbn; now rewrite IH | exact IH].
Qed.

Lemma stocks_loop_codes feed : forall ids ms ids',
  Seller.stocks_loop feed ids = (Some ms, ids') ->
  forall e, In e ms -> In (Seller.offer_id e) (codes feed).
Proof.
  induction feed as [|w rest IH]; intros ids ms ids' H e He; cbn in H.
  - injection H as <- <-; destruct He.
  - step_M H.
    destruct (py_in (py_str (code w)) ids) eqn:Hin;
      [|right; exact (IH _ _ _ H e He)].
    step_M H.
    destruct (quantize_value (quantity w)) as [v|]; [|discriminate].
    destruct (remove_first (py_str (code w)) ids) as [r|] eqn:Hr; [|discriminate].
    destruct (Seller.stocks_loop rest r) as [[tl|] s''] eqn:Hl; [|discriminate].
    injection H as <- <-.
    destruct He as [<-|He]; [now left | right; exact (IH _ _ _ Hl e He)].
Qed.

(** With distinct identifiers, the list left behind is the original one
    without the codes of the feed. *)
Lemma stocks_loop_rest_NoDup feed : forall ids ms ids',
  NoDup ids ->
  Seller.stocks_loop feed ids = (Some ms, ids') ->
  ids' = filter (fun i => negb (py_in i (codes feed))) ids.
Proof.
  induction feed as [|w rest IH]; intros ids ms ids' Hnd H; cbn in H.
  - injection H as <- <-; symmetry; apply forallb_filter_id, forallb_forall.
    reflexivity.
  - step_M H.
    destruct (py_in (py_str (code w)) ids) eqn:Hin.
    + step_M H.
      destruct (quantize_value (quantity w)) as [v|]; [|discriminate].
      destruct (remove_first (py_str (code w)) ids) as [r|] eqn:Hr; [|discriminate].
      destruct (Seller.stocks_loop rest r) as [[tl|] s''] eqn:Hl; [|discriminate].
      injection H as <- <-.
      pose proof (remove_first_NoDup _ _ _ Hnd Hr) as Er.
      assert (Hndr : NoDup r) by (rewrite Er; apply NoDup_filter, Hnd).
      rewrite (IH _ _ _ Hndr Hl), Er, filter_filter.
      apply filter_ext; intros i; cbn.
      destruct (String.eqb i _); reflexivity.
    + rewrite (IH _ _ _ Hnd H).
      apply filter_ext_in; intros i Hi; cbn.
      destruct (String.eqb_spec i (py_str (code w))) as [->|]; [|reflexivity].
      apply py_in_false in Hin; contradiction.
Qed.

(** In general each match consumes one copy of its identifier. *)
Lemma stocks_loop_rest_count feed : forall ids ms ids',
  Seller.stocks_loop feed ids = (Some ms, ids') ->
  forall x, count_occ string_dec ids' x
            = (count_occ string_dec ids x - count_occ string_dec (codes feed) x)%nat.
Proof.
  induction feed as [|w rest IH]; intros ids ms ids' H x; cbn in H.
  - injection H as <- <-; cbn; lia.
  - step_M H.
    destruct (py_in (py_str (code w)) ids) eqn:Hin.
    + step_M H.
      destruct (quantize_value (quantity w)) as [v|]; [|discriminate].
      destruct (remove_first (py_str (code w)) ids) as [r|] eqn:Hr; [|discriminate].
      destruct (Seller.stocks_loop rest r) as [[tl|] s''] eqn:Hl; [|discriminate].
      injection H as <- <-.
      rewrite (IH _ _ _ Hl x).
      pose proof (proj1 (Permutation_count_occ string_dec _ _)
                    (remove_first_perm _ _ _ Hr) x) as Hc.
      change (codes (w :: rest)) with (py_str (code w) :: codes rest).
      destruct (string_dec (py_str (code w)) x) as [E|E].
      * rewrite count_occ_cons_eq in Hc |- * by exact E; lia.
      * rewrite count_occ_cons_neq in Hc |- * by exact E; lia.
    + rewrite (IH _ _ _ H x).
      change (codes (w :: rest)) with (py_str (code w) :: codes rest).
      destruct (string_dec (py_str (code w)) x) as [<-|E].
      * apply py_in_false, (count_occ_not_In string_dec) in Hin.
        rewrite Hin; cbn; lia.
      * rewrite count_occ_cons_neq by exact E; reflexivity.
Qed.

(** [create_prices] is a filter of the feed on membership of the code,
    and leaves the list as it found it. *)
Lemma seller_create_prices_filter feed ids :
  Seller.create_prices feed ids
  = (Some (map seller_price_of
             (filter (fun w => py_in (py_str (code w)) ids) feed)), ids).
Proof.
  induction feed as [|w rest IH]; [reflexivity|].
  cbn [Seller.create_prices]; unfold bind, get, ret; cbn beta iota.
  cbn [filter]; destruct (py_in (py_str (code w)) ids) eqn:Hin;
    cbn; rewrite IH; reflexivity.
Qed.

Lemma market_create_prices_state feed ids :
  snd (Market.create_prices feed ids) = ids.
Proof.
  induction feed as [|w rest IH]; [reflexivity|].
  cbn [Market.create_prices]; unfold bind, get, ret, raise; cbn beta iota.
  destruct (py_in (py_str (code w)) ids); [|exact IH].
  destruct (py_int _); [|reflexivity].
  destruct (Market.create_prices rest ids) as [[tl|] s'] eqn:E;
    cbn in IH |- *; exact IH.
Qed.

(** The Yandex [create_prices] raises exactly when [int()] refuses the
    converted price of a record whose code is listed. *)
Lemma market_create_prices_none (feed : list watch) (ids : list string) :
  fst (Market.create_prices feed ids) = None <->
  exists w, In w feed /\ py_in (py_str (code w)) ids = true /\
            py_int (Seller.price_conversion (price w)) = None.
Proof.
  induction feed as [|w rest IH]; cbn [Market.create_prices].
  - cbn; split; [discriminate|intros [w [[] _]]].
  - unfold bind, get, ret, raise; cbn beta iota.
    destruct (py_in (py_str (code w)) ids) eqn:Hin.
    + destruct (py_int (Seller.price_conversion (price w))) as [v|] eqn:Hv.
      * pose proof (market_create_prices_state rest ids) as Hs.
        destruct (Market.create_prices rest ids) as [[tl|] s'] eqn:E;
          cbn in Hs, IH |- *; subst s'.
        -- split; [discriminate|].
           intros [w' [[<-|Hw'] [Hin' Hp]]]; [congruence|].
           assert (Hn : Some tl = None) by (apply IH; eauto).
           discriminate Hn.
        -- split; [|reflexivity]; intros _.
           destruct (proj1 IH eq_refl) as [w' [Hw' H']].
           exists w'; split; [right; exact Hw'|exact H'].
      * cbn; split; [|reflexivity]; intros _.
        exists w; split; [left; reflexivity|split; assumption].
    + rewrite IH; split.
      * intros [w' [Hw' H']]; exists w'; split; [right; exact Hw'|exact H'].
      * intros [w' [[<-|Hw'] [Hin' Hp]]]; [congruence|eauto].
Qed.

(** On success, the Yandex price updates name the listed codes of the
    feed, in feed order. *)
Lemma market_create_prices_ids feed ids : forall mps,
  fst (Market.create_prices feed ids) = Some mps ->
  map Market.id mps = filter (fun c => py_in c ids) (codes feed).
Proof.
  induction feed as [|w rest IH]; intros mps H.
  - injection H as <-; reflexivity.
  - cbn [Market.create_prices] in H; unfold bind, get, ret, raise in H;
      cbn beta iota in H.
    cbn [codes map filter]; fold (codes rest).
    destruct (py_in (py_str (code w)) ids); [|exact (IH _ H)].
    destruct (py_int _); [|discriminate].
    destruct (Market.create_prices rest ids) as [[tl|] s'] eqn:E;
      cbn in H; [|discriminate].
    injection H as <-; cbn; rewrite (IH tl eq_refl); reflexivity.
Qed.

(** The Yandex [create_prices] only asks whether a code is listed. *)
Lemma market_create_prices_ext feed ids1 ids2 :
  (forall x, py_in x ids1 = py_in x ids2) ->
  fst (Market.create_prices feed ids1) = fst (Market.create_prices feed ids2).
Proof.
  intros Hx; induction feed as [|w rest IH]; [reflexivity|].
  cbn [Market.create_prices]; unfold bind, get, ret, raise; cbn beta iota.
  rewrite Hx; destruct (py_in (py_str (code w)) ids2); [|exact IH].
  destruct (py_int _); [|reflexivity].
  destruct (Market.create_prices rest ids1) as [r1 s1].
  destruct (Market.create_prices rest ids2) as [r2 s2].
  cbn in IH; subst r2; destruct r1; reflexivity.
Qed.

Lemma create_stocks_inv feed ids st ids' :
  Seller.create_stocks feed ids = (Some st, ids') ->
  exists ms, Seller.stocks_loop feed ids = (Some ms, ids') /\
             st = (ms ++ map (fun i => Seller.mk_stock i 0) ids')%list.
Proof.
  unfold Seller.create_stocks, bind, get, ret; intros H.
  destruct (Seller.stocks_loop feed ids) as [[ms|] s1]; [|discriminate].
  injection H as <- <-; eauto.
Qed.

Lemma count_occ_filter_string (f : string -> bool) l x :
  count_occ string_dec (filter f l) x
  = if f x then count_occ string_dec l x else 0%nat.
Proof.
  induction l as [|y l IH]; cbn; [now destruct (f x)|].
  destruct (f y) eqn:Fy; cbn; rewrite IH.
  - destruct (string_dec y x) as [->|]; [now rewrite Fy|reflexivity].
  - destruct (string_dec y x) as [->|]; [now rewrite Fy|reflexivity].
Qed.

Lemma seller_price_ids feed ids :
  map Seller.p_offer_id
      (map seller_price_of (filter (fun w => py_in (py_str (code w)) ids) feed))
  = filter (fun c => py_in c ids) (codes feed).
Proof.
  induction feed as [|w rest IH]; [reflexivity|]; cbn.
  destruct (py_in (py_str (code w)) ids); cbn; now rewrite IH.
Qed.

(** ** The two [create_stocks] *)

Lemma market_stocks_loop feed wh date : forall ids,
  Market.stocks_loop feed wh date ids
  = let (r, s) := Seller.stocks_loop feed ids in
    (option_map (map (to_market wh date)) r, s).
Proof.
  induction feed as [|w rest IH]; intros ids; [reflexivity|].
  cbn [Market.stocks_loop Seller.stocks_loop].
  unfold bind, get, ret, list_remove; cbn beta iota.
  destruct (py_in (py_str (code w)) ids); [|apply IH].
  rewrite !quantize_state; destruct (quantize_value (quantity w)); [|reflexivity].
  destruct (remove_first (py_str (code w)) ids) as [r|]; [|reflexivity].
  rewrite IH; destruct (Seller.stocks_loop rest r) as [[tl|] s']; reflexivity.
Qed.

Lemma market_create_stocks feed wh date ids :
  Market.create_stocks feed wh date ids
  = let (r, s) := Seller.create_stocks feed ids in
    (option_map (map (to_market wh date)) r, s).
Proof.
  unfold Market.create_stocks, Seller.create_stocks, bind, get, ret.
  rewrite market_stocks_loop.
  destruct (Seller.stocks_loop feed ids) as [[ms|] s]; cbn; [|reflexivity].
  rewrite map_app, map_map; reflexivity.
Qed.

(** ** C1 *)

(** C1 (counterexample): with two feed records carrying the code "A" and the
    known identifiers ["A"], [create_stocks] gives "A" one stock update but
    [create_prices] gives it two price updates, not exactly one. *)
Lemma reconcile_duplicate_code_two_prices :
  Seller.create_stocks feed_dup ["A"] = (Some [Seller.mk_stock "A" 100], [])
  /\ Seller.create_prices feed_dup ["A"]
     = (Some [Seller.mk_price "UNKNOWN" "RUB" "A" "0" "100";
              Seller.mk_price "UNKNOWN" "RUB" "A" "0" "90"], ["A"]).
Proof. split; reflexivity. Qed.

(** C1 (amended): when [create_stocks] succeeds, its stock updates name
    every known identifier as often as the known list does (so exactly once
    when the known identifiers are distinct), name no other identifier, and
    give quantity 0 to every known identifier matching no feed code; the
    Yandex [create_stocks] then returns the same updates in its own shape.
    The Ozon [create_prices] on the same known identifiers never raises and
    gives a known identifier one price update per feed record carrying its
    code, and none to any other identifier (so none for an unmatched
    identifier, exactly one when its code occurs once in the feed).  The
    Yandex [create_prices] gives the same counts when it returns, and
    raises exactly when [int()] refuses the converted price of a listed
    record. *)
Theorem reconcile_stock_and_price_counts (feed : list watch) (ids : list string) :
  (forall ids' st, Seller.create_stocks feed ids = (Some st, ids') ->
     (forall i, count_occ string_dec (map Seller.offer_id st) i
                = count_occ string_dec ids i) /\
     (NoDup ids -> forall i, In i ids ->
        count_occ string_dec (map Seller.offer_id st) i = 1%nat) /\
     (forall e, In e st -> In (Seller.offer_id e) ids) /\
     (forall i, In i ids -> ~ In i (codes feed) -> In (Seller.mk_stock i 0) st) /\
     (forall wh date, Market.create_stocks feed wh date ids
                      = (Some (map (to_market wh date) st), ids'))) /\
  (exists ps, Seller.create_prices feed ids = (Some ps, ids) /\
     forall i, count_occ string_dec (map Seller.p_offer_id ps) i
               = if py_in i ids then count_occ string_dec (codes feed) i
                 else 0%nat) /\
  (forall mps, fst (Market.create_prices feed ids) = Some mps ->
     forall i, count_occ string_dec (map Market.id mps) i
               = if py_in i ids then count_occ string_dec (codes feed) i
                 else 0%nat) /\
  (fst (Market.create_prices feed ids) = None <->
   exists w, In w feed /\ py_in (py_str (code w)) ids = true /\
             py_int (Seller.price_conversion (price w)) = None).
Proof.
  split; [|split; [|split]].
  - intros ids' st H.
    destruct (create_stocks_inv _ _ _ _ H) as [ms [Hl ->]].
    pose proof (stocks_loop_perm _ _ _ _ Hl) as Hp.
    assert (Hc : forall i, count_occ string_dec
                             (map Seller.offer_id
                                (ms ++ map (fun i => Seller.mk_stock i 0) ids'))
                             i = count_occ string_dec ids i).
    { intros i; rewrite map_app, map_map; cbn; rewrite map_id.
      symmetry; apply (Permutation_count_occ string_dec); exact Hp. }
    split; [exact Hc|].
    split.
    { intros Hnd i Hi; rewrite Hc; apply (NoDup_count_occ' string_dec); assumption. }
    split.
    { intros e He; apply (Permutation_in _ (Permutation_sym Hp)).
      apply in_app_or in He as [He|He]; apply in_or_app.
      - left; apply in_map; exact He.
      - right; apply in_map_iff in He as [j [<- Hj]]; exact Hj. }
    split.
    { intros i Hi Hnot; apply in_or_app; right.
      apply (in_map (fun i => Seller.mk_stock i 0)).
      apply (Permutation_in _ Hp), in_app_or in Hi as [Hi|Hi]; [|exact Hi].
      apply in_map_iff in Hi as [e [<- He]].
      exfalso; exact (Hnot (stocks_loop_codes _ _ _ _ Hl e He)). }
    intros wh date; rewrite market_create_stocks, H; reflexivity.
  - eexists; split; [apply seller_create_prices_filter|].
    intros i; rewrite seller_price_ids; apply count_occ_filter_string.
  - intros mps Hm i; rewrite (market_create_prices_ids _ _ _ Hm).
    apply count_occ_filter_string.
  - apply market_create_prices_none.
Qed.

(** Witness of C1 on the spec's reconciliation example. *)
Lemma reconcile_stock_and_price_counts_witness :
  Seller.create_stocks feed_ab ["A"; "B"; "C"]
  = (Some [Seller.mk_stock "A" 100; Seller.mk_stock "B" 0;
           Seller.mk_stock "C" 0], ["C"])
  /\ count_occ string_dec
       (map Seller.offer_id [Seller.mk_stock "A" 100; Seller.mk_stock "B" 0;
                             Seller.mk_stock "C" 0]) "C"
     = count_occ string_dec ["A"; "B"; "C"] "C"
  /\ count_occ string_dec
       (map Market.id [Market.mk_price "A" 100 "RUR"; Market.mk_price "B" 50 "RUR"])
       "A" = 1%nat.
Proof.
  split; [reflexivity|split].
  - apply (proj1 (proj1 (reconcile_stock_and_price_counts feed_ab ["A"; "B"; "C"])
                    ["C"] _ eq_refl)).
  - exact (proj1 (proj2 (proj2 (reconcile_stock_and_price_counts feed_ab
                                  ["A"; "B"; "C"])))
             _ eq_refl "A").
Defined.

Lemma stocks_loop_app pre rest : forall ids,
  Seller.stocks_loop (pre ++ rest) ids
  = match Seller.stocks_loop pre ids with
    | (Some ms, mid) =>
        let (r, s) := Seller.stocks_loop rest mid in
        (option_map (app ms) r, s)
    | (None, s) => (None, s)
    end.
Proof.
  induction pre as [|w pre IH]; intros ids; cbn [app].
  - cbn; destruct (Seller.stocks_loop rest ids) as [[r|] s]; reflexivity.
  - cbn [Seller.stocks_loop]; unfold bind, get, ret, list_remove; cbn beta iota.
    destruct (py_in (py_str (code w)) ids); [|apply IH].
    rewrite !quantize_state; destruct (quantize_value (quantity w)); [|reflexivity].
    destruct (remove_first (py_str (code w)) ids) as [r|]; [|reflexivity].
    rewrite IH.
    destruct (Seller.stocks_loop pre r) as [[ms|] mid]; [|reflexivity].
    destruct (Seller.stocks_loop rest mid) as [[tl|] s]; reflexivity.
Qed.

(** The record [w] is reached with its code still in the list. *)
Lemma stocks_loop_at pre w post ids ms mid :
  Seller.stocks_loop pre ids = (Some ms, mid) ->
  In (py_str (code w)) mid ->
  fst (Seller.create_stocks (pre ++ w :: post) ids)
  = match quantize_value (quantity w) with
    | None => None
    | Some v =>
        option_map (fun st => (ms ++ Seller.mk_stock (py_str (code w)) v :: st)%list)
          (fst (Seller.create_stocks post
                  (match remove_first (py_str (code w)) mid with
                   | Some r => r | None => mid end)))
    end.
Proof.
  intros Hpre Hin.
  unfold Seller.create_stocks at 1; unfold bind at 1.
  rewrite stocks_loop_app, Hpre.
  cbn [Seller.stocks_loop]; unfold bind at 1 2, get; cbn beta iota.
  apply py_in_In in Hin; rewrite Hin.
  unfold bind, ret, list_remove; cbn beta iota; rewrite quantize_state.
  destruct (quantize_value (quantity w)) as [v|]; [|reflexivity].
  apply py_in_In, remove_first_In in Hin as [r ->].
  unfold Seller.create_stocks, bind, get, ret.
  destruct (Seller.stocks_loop post r) as [[tl|] s]; cbn; [|reflexivity].
  now rewrite <- app_assoc.
Qed.

(** ** C2 *)

(** C2: a feed record reached while its code is still among the known
    identifiers gets stock 100 when its quantity is ">10", 0 when it is "1",
    and otherwise [int()] of its quantity, an unparsable quantity making the
    whole call raise; the Yandex [create_stocks] carries the same counts.
    On the spec's example, the stock updates are A:100, B:0, C:0 and the
    price updates A:100, B:50, with none for C. *)
Theorem quantization_rule :
  (forall pre w post ids ms mid,
     Seller.stocks_loop pre ids = (Some ms, mid) ->
     In (py_str (code w)) mid ->
     let c := py_str (code w) in
     let r := fst (Seller.create_stocks (pre ++ w :: post) ids) in
     (py_str (quantity w) = ">10" ->
        forall st, r = Some st -> exists tl, st = (ms ++ Seller.mk_stock c 100 :: tl)%list) /\
     (py_str (quantity w) = "1" ->
        forall st, r = Some st -> exists tl, st = (ms ++ Seller.mk_stock c 0 :: tl)%list) /\
     (py_str (quantity w) <> ">10" -> py_str (quantity w) <> "1" ->
        (py_int_cell (quantity w) = None -> r = None) /\
        (forall z, py_int_cell (quantity w) = Some z ->
           forall st, r = Some st -> exists tl, st = (ms ++ Seller.mk_stock c z :: tl)%list)) /\
     (forall wh date, fst (Market.create_stocks (pre ++ w :: post) wh date ids)
                      = option_map (map (to_market wh date)) r))
  /\ fst (Seller.create_stocks feed_ab ["A"; "B"; "C"])
     = Some [Seller.mk_stock "A" 100; Seller.mk_stock "B" 0; Seller.mk_stock "C" 0]
  /\ fst (Seller.create_prices feed_ab ["A"; "B"; "C"])
     = Some [Seller.mk_price "UNKNOWN" "RUB" "A" "0" "100";
             Seller.mk_price "UNKNOWN" "RUB" "B" "0" "50"]
  /\ fst (Market.create_prices feed_ab ["A"; "B"; "C"])
     = Some [Market.mk_price "A" 100 "RUR"; Market.mk_price "B" 50 "RUR"].
Proof.
  split; [|split; [reflexivity|split; reflexivity]].
  intros pre w post ids ms mid Hpre Hin c r.
  pose proof (stocks_loop_at pre w post ids ms mid Hpre Hin) as Hat.
  fold c in Hat; fold r in Hat.
  assert (Hsome : forall v, quantize_value (quantity w) = Some v ->
            forall st, r = Some st ->
            exists tl, st = (ms ++ Seller.mk_stock c v :: tl)%list).
  { intros v Hv st Hr; rewrite Hr, Hv in Hat.
    destruct (fst (Seller.create_stocks post _)) as [tl|]; cbn in Hat;
      [|discriminate].
    injection Hat as E; subst st; eauto. }
  unfold quantize_value, quantize in Hsome, Hat; cbn beta zeta in Hsome, Hat.
  split; [intros Hq; rewrite Hq in Hsome; exact (Hsome 100 eq_refl)|].
  split; [intros Hq; rewrite Hq in Hsome; exact (Hsome 0 eq_refl)|].
  split.
  - intros Hq1 Hq2.
    apply String.eqb_neq in Hq1, Hq2; rewrite Hq1, Hq2 in Hsome, Hat.
    split.
    + intros Hn; rewrite Hn in Hat; exact Hat.
    + intros z Hz; rewrite Hz in Hsome; exact (Hsome z eq_refl).
  - intros wh date; rewrite market_create_stocks.
    unfold r; destruct (Seller.create_stocks _ ids); reflexivity.
Qed.

(** Witness of C2: record "B" (quantity "1") of the example, reached after
    record "A" has been matched; a quantity "\u0663" read as 3 and one of
    4301 digits that [int()] refuses, so that [create_stocks] raises; a
    quantity "\xa05" read as 5. *)
Lemma quantization_rule_witness :
  Seller.stocks_loop [mk_watch (CStr "A") (CStr ">10") "100.00"] ["A"; "B"; "C"]
  = (Some [Seller.mk_stock "A" 100], ["B"; "C"])
  /\ In "B" ["B"; "C"]
  /\ (forall st, fst (Seller.create_stocks feed_ab ["A"; "B"; "C"]) = Some st ->
        exists tl, st = ([Seller.mk_stock "A" 100] ++ Seller.mk_stock "B" 0 :: tl)%list)
  /\ (forall st, fst (Seller.create_stocks [mk_watch (CStr "D") (CStr qty_arabic_3) "1"]
                                           ["D"]) = Some st ->
        exists tl, st = ([] ++ Seller.mk_stock "D" 3 :: tl)%list)
  /\ fst (Seller.create_stocks [mk_watch (CStr "F") (CStr qty_4301_digits) "1"] ["F"])
     = None
  /\ fst (Seller.create_stocks [mk_watch (CStr "E") (CStr qty_nbsp_5) "1"] ["E"])
     = Some [Seller.mk_stock "E" 5].
Proof.
  destruct quantization_rule as [Hgen _].
  split; [reflexivity|split; [cbn; auto|split; [|split; [|split]]]].
  - exact (proj1 (proj2 (Hgen [mk_watch (CStr "A") (CStr ">10") "100.00"]
                           (mk_watch (CStr "B") (CStr "1") "50.00") []
                           ["A"; "B"; "C"] _ _ eq_refl
                           (or_introl eq_refl))) eq_refl).
  - refine (proj2 (proj1 (proj2 (proj2 (Hgen [] (mk_watch (CStr "D") (CStr qty_arabic_3) "1")
                                              [] ["D"] [] ["D"] eq_refl
                                              (or_introl eq_refl))))
                           _ _) 3 _); [discriminate|discriminate|reflexivity].
  - refine (proj1 (proj1 (proj2 (proj2 (Hgen [] (mk_watch (CStr "F") (CStr qty_4301_digits) "1")
                                              [] ["F"] [] ["F"] eq_refl
                                              (or_introl eq_refl))))
                           _ _) _).
    + vm_compute; discriminate.
    + vm_compute; discriminate.
    + vm_compute; reflexivity.
  - reflexivity.
Defined.

Lemma subseq_refl {A} (l : list A) : subseq l l.
Proof. induction l; constructor; assumption. Qed.

Lemma subseq_trans {A} (l1 l2 l3 : list A) :
  subseq l1 l2 -> subseq l2 l3 -> subseq l1 l3.
Proof.
  intros H12 H23; revert l1 H12.
  induction H23 as [|x l2 l3 H IH|x l2 l3 H IH]; intros l1 H12.
  - exact H12.
  - inversion H12; subst; constructor; auto.
  - constructor; auto.
Qed.

Lemma remove_first_subseq x l r : remove_first x l = Some r -> subseq r l.
Proof.
  revert r; induction l as [|y l IH]; intros r H; cbn in H; [discriminate|].
  destruct (String.eqb x y).
  - injection H as <-; constructor; apply subseq_refl.
  - destruct (remove_first x l) as [r'|] eqn:E; cbn in H; [|discriminate].
    injection H as <-; constructor; apply IH; reflexivity.
Qed.

Lemma stocks_loop_subseq feed : forall ids r ids',
  Seller.stocks_loop feed ids = (r, ids') -> subseq ids' ids.
Proof.
  induction feed as [|w rest IH]; intros ids r ids' H; cbn in H.
  - injection H as _ <-; apply subseq_refl.
  - step_M H.
    destruct (py_in (py_str (code w)) ids); [|exact (IH _ _ _ H)].
    step_M H.
    destruct (quantize_value (quantity w)) as [v|];
      [|injection H as _ <-; apply subseq_refl].
    destruct (remove_first (py_str (code w)) ids) as [q|] eqn:Hq;
      [|injection H as _ <-; apply subseq_refl].
    destruct (Seller.stocks_loop rest q) as [[tl|] s''] eqn:Hl;
      injection H as _ <-;
      exact (subseq_trans _ _ _ (IH _ _ _ Hl) (remove_first_subseq _ _ _ Hq)).
Qed.

(** ** C3 *)

Lemma py_in_perm x l1 l2 : Permutation l1 l2 -> py_in x l1 = py_in x l2.
Proof.
  intros Hp; destruct (py_in x l1) eqn:E1, (py_in x l2) eqn:E2; try reflexivity.
  - apply py_in_In in E1; apply py_in_false in E2.
    exfalso; exact (E2 (Permutation_in _ Hp E1)).
  - apply py_in_false in E1; apply py_in_In in E2.
    exfalso; exact (E1 (Permutation_in _ (Permutation_sym Hp) E2)).
Qed.

(** Reordering the known identifiers changes neither the outcome of the
    matching loop nor, up to order, the list it leaves behind. *)
Lemma stocks_loop_perm_inv feed : forall ids1 ids2 r1 t1 r2 t2,
  Permutation ids1 ids2 ->
  Seller.stocks_loop feed ids1 = (r1, t1) ->
  Seller.stocks_loop feed ids2 = (r2, t2) ->
  r1 = r2 /\ Permutation t1 t2.
Proof.
  induction feed as [|w rest IH]; intros ids1 ids2 r1 t1 r2 t2 Hp H1 H2;
    cbn in H1, H2.
  - injection H1 as <- <-; injection H2 as <- <-; auto.
  - step_M H1; step_M H2.
    rewrite <- (py_in_perm (py_str (code w)) _ _ Hp) in H2.
    destruct (py_in (py_str (code w)) ids1) eqn:Hin; [|exact (IH _ _ _ _ _ _ Hp H1 H2)].
    step_M H1; step_M H2.
    destruct (quantize_value (quantity w)) as [v|].
    2:{ injection H1 as <- <-; injection H2 as <- <-; auto. }
    apply py_in_In in Hin.
    destruct (remove_first_In _ _ Hin) as [q1 Hq1].
    destruct (remove_first_In _ _ (Permutation_in _ Hp Hin)) as [q2 Hq2].
    rewrite Hq1 in H1; rewrite Hq2 in H2.
    assert (Hq : Permutation q1 q2).
    { apply (Permutation_cons_inv (a := py_str (code w))).
      rewrite <- (remove_first_perm _ _ _ Hq1), <- (remove_first_perm _ _ _ Hq2).
      exact Hp. }
    destruct (Seller.stocks_loop rest q1) as [o1 s1] eqn:E1.
    destruct (Seller.stocks_loop rest q2) as [o2 s2] eqn:E2.
    destruct (IH _ _ _ _ _ _ Hq E1 E2) as [<- Hs].
    destruct o1; injection H1 as <- <-; injection H2 as <- <-; auto.
Qed.

(** C3: reconciliation run twice on the same inputs, the known
    identifiers listed afresh for each run (possibly in another order),
    gives the same updates.  Each [create_stocks] (Ozon and Yandex) raises
    on both runs or on neither; when it returns, the matched updates are
    identical and in feed order, and only the zero-stock tail of unmatched
    identifiers may come in another order: the order of the identifiers in
    each run's list, so the same order when the lists are the same.  Both
    [create_prices] return the very same result on the two runs. *)
Theorem reconcile_rerun_same_updates (feed : list watch) (ids1 ids2 : list string) :
  Permutation ids1 ids2 ->
  ((fst (Seller.create_stocks feed ids1) = None
    <-> fst (Seller.create_stocks feed ids2) = None) /\
   (forall st1 st2,
      fst (Seller.create_stocks feed ids1) = Some st1 ->
      fst (Seller.create_stocks feed ids2) = Some st2 ->
      Permutation st1 st2 /\
      exists ms t1 t2, Permutation t1 t2 /\ subseq t1 ids1 /\ subseq t2 ids2 /\
        (ids1 = ids2 -> t1 = t2) /\
        st1 = (ms ++ map (fun i => Seller.mk_stock i 0) t1)%list /\
        st2 = (ms ++ map (fun i => Seller.mk_stock i 0) t2)%list)) /\
  (forall wh date,
     (fst (Market.create_stocks feed wh date ids1) = None
      <-> fst (Market.create_stocks feed wh date ids2) = None) /\
     (forall st1 st2,
        fst (Market.create_stocks feed wh date ids1) = Some st1 ->
        fst (Market.create_stocks feed wh date ids2) = Some st2 ->
        Permutation st1 st2 /\
        exists ms t1 t2, Permutation t1 t2 /\ subseq t1 ids1 /\ subseq t2 ids2 /\
          (ids1 = ids2 -> t1 = t2) /\
          st1 = (ms ++ map (fun i => Market.mk_stock i wh
                                       [Market.mk_item 0 "FIT" date]) t1)%list /\
          st2 = (ms ++ map (fun i => Market.mk_stock i wh
                                       [Market.mk_item 0 "FIT" date]) t2)%list)) /\
  fst (Seller.create_prices feed ids1) = fst (Seller.create_prices feed ids2) /\
  fst (Market.create_prices feed ids1) = fst (Market.create_prices feed ids2).
Proof.
  intros Hp.
  destruct (Seller.stocks_loop feed ids1) as [o1 t1] eqn:E1.
  destruct (Seller.stocks_loop feed ids2) as [o2 t2] eqn:E2.
  destruct (stocks_loop_perm_inv _ _ _ _ _ _ _ Hp E1 E2) as [<- Ht].
  pose proof (stocks_loop_subseq _ _ _ _ E1) as Hs1.
  pose proof (stocks_loop_subseq _ _ _ _ E2) as Hs2.
  assert (Ht12 : ids1 = ids2 -> t1 = t2)
    by (intros <-; rewrite E1 in E2; injection E2 as E; exact E).
  assert (C1 : fst (Seller.create_stocks feed ids1)
               = option_map (fun ms => ms ++ map (fun i => Seller.mk_stock i 0) t1)%list o1)
    by (unfold Seller.create_stocks, bind, get, ret; rewrite E1; destruct o1; reflexivity).
  assert (C2 : fst (Seller.create_stocks feed ids2)
               = option_map (fun ms => ms ++ map (fun i => Seller.mk_stock i 0) t2)%list o1)
    by (unfold Seller.create_stocks, bind, get, ret; rewrite E2; destruct o1; reflexivity).
  assert (Hm : forall wh date ids,
             fst (Market.create_stocks feed wh date ids)
             = option_map (map (to_market wh date)) (fst (Seller.create_stocks feed ids)))
    by (intros wh date ids; rewrite market_create_stocks;
        destruct (Seller.create_stocks feed ids); reflexivity).
  split; [|split; [|split]].
  - rewrite C1, C2; split.
    + destruct o1; cbn; split; congruence.
    + intros st1 st2 H1 H2; destruct o1 as [ms|]; [|discriminate].
      cbn in H1, H2; injection H1 as <-; injection H2 as <-.
      split; [apply Permutation_app_head, Permutation_map, Ht|].
      exists ms, t1, t2; repeat split; auto.
  - intros wh date; rewrite !Hm, C1, C2; split.
    + destruct o1; cbn; split; congruence.
    + intros st1 st2 H1 H2; destruct o1 as [ms|]; [|discriminate].
      cbn in H1, H2; injection H1 as <-; injection H2 as <-.
      rewrite !map_app, !map_map.
      split; [apply Permutation_app_head, Permutation_map, Ht|].
      exists (map (to_market wh date) ms), t1, t2; repeat split; auto.
  - rewrite !seller_create_prices_filter; cbn; f_equal; f_equal.
    apply filter_ext; intros w; apply py_in_perm, Hp.
  - apply market_create_prices_ext; intros x; apply py_in_perm, Hp.
Qed.

(** Witness of C3: the example feed, the known identifiers in two orders. *)
Lemma reconcile_rerun_same_updates_witness :
  Permutation ["A"; "B"; "C"; "D"] ["D"; "C"; "B"; "A"] /\
  fst (Seller.create_prices feed_ab ["A"; "B"; "C"; "D"])
  = fst (Seller.create_prices feed_ab ["D"; "C"; "B"; "A"]) /\
  fst (Market.create_prices feed_ab ["A"; "B"; "C"; "D"])
  = fst (Market.create_prices feed_ab ["D"; "C"; "B"; "A"]).
Proof.
  assert (Hp : Permutation ["A"; "B"; "C"; "D"] ["D"; "C"; "B"; "A"]).
  { apply (Permutation_rev ["A"; "B"; "C"; "D"]). }
  split; [exact Hp|split].
  - exact (proj1 (proj2 (proj2 (reconcile_rerun_same_updates feed_ab _ _ Hp)))).
  - exact (proj2 (proj2 (proj2 (reconcile_rerun_same_updates feed_ab _ _ Hp)))).
Defined.

(** ** [divide] *)

Lemma firstn_min_eq {A} (l : list A) a b :
  Nat.min a (length l) = Nat.min b (length l) -> firstn a l = firstn b l.
Proof.
  revert a b; induction l as [|x l IH]; intros a b H; [now rewrite !firstn_nil|].
  destruct a, b; cbn in H |- *; [reflexivity|lia|lia|].
  f_equal; apply IH; lia.
Qed.

Lemma py_slice_chunk {A} (lst : list A) (i n : nat) :
  (i <= length lst)%nat ->
  Seller.py_slice lst (Z.of_nat i) (Z.of_nat i + Z.of_nat n)
  = firstn n (skipn i lst).
Proof.
  intros Hi; unfold Seller.py_slice, Seller.slice_index.
  destruct (Z.ltb_spec (Z.of_nat i) 0); [lia|].
  destruct (Z.ltb_spec (Z.of_nat i + Z.of_nat n) 0); [lia|].
  replace (Z.to_nat (Z.max 0 (Z.min (Z.of_nat i) (Z.of_nat (length lst))))) with i
    by lia.
  apply firstn_min_eq; rewrite length_skipn; lia.
Qed.

Section Divide.
Context {A : Type} (lst : list A) (n : nat).
Hypothesis n_pos : (0 < n)%nat.

Lemma range_chunks fuel : forall i,
  (length lst - i <= fuel)%nat ->
  chunks_ok lst n i (map (chunk_at lst n)
                 (Seller.range_from fuel (Z.of_nat i) (Z.of_nat (length lst)) (Z.of_nat n))).
Proof.
  assert (Hnil : forall i, (length lst <= i)%nat -> chunks_ok lst n i []).
  { intros i Hi; unfold chunks_ok.
    replace (length lst - i)%nat with 0%nat by lia.
    rewrite skipn_all2 by lia.
    repeat split; try constructor; try (intros; congruence).
    symmetry; apply Nat.div_small; lia. }
  induction fuel as [|f IH]; intros i Hf; [apply Hnil; lia|].
  cbn [Seller.range_from].
  destruct (Z.ltb_spec 0 (Z.of_nat n)) as [_|]; [|lia].
  destruct (Z.ltb_spec (Z.of_nat i) (Z.of_nat (length lst))) as [Hi|Hi];
    [|apply Hnil; lia].
  rewrite <- Nat2Z.inj_add.
  specialize (IH (i + n)%nat ltac:(lia)).
  cbn [map]; set (cs := map (chunk_at lst n) _) in IH |- *.
  unfold chunk_at at 1; rewrite py_slice_chunk by lia.
  destruct IH as (Hcat & Hlen & Hempty & Hlast & Hcount).
  assert (Hc : length (firstn n (skipn i lst)) = Nat.min n (length lst - i))
    by now rewrite length_firstn, length_skipn.
  unfold chunks_ok; split; [|split; [|split; [|split]]].
  - cbn; rewrite Hcat, Nat.add_comm, <- skipn_skipn; apply firstn_skipn.
  - destruct cs as [|c cs'] eqn:Ecs; [constructor|].
    assert (length lst - (i + n) <> 0)%nat by (intros E; specialize (Hempty E); discriminate).
    cbn [removelast]; constructor; [lia|exact Hlen].
  - lia.
  - intros _.
    destruct (Nat.eq_dec (length lst - (i + n)) 0) as [E|E].
    + rewrite (Hempty E); cbn [last]; rewrite Hc.
      destruct (Nat.eq_dec (length lst - i) n) as [E'|E'].
      * rewrite E', Nat.Div0.mod_same, Nat.eqb_refl; lia.
      * rewrite Nat.mod_small by lia.
        destruct (Nat.eqb_spec (length lst - i) 0); lia.
    + specialize (Hlast E).
      destruct cs as [|c cs'] eqn:Ecs.
      { cbn in Hcount; symmetry in Hcount.
        apply Nat.div_small_iff in Hcount; lia. }
      replace (last (firstn n (skipn i lst) :: c :: cs') []) with (last (c :: cs') [])
        by reflexivity.
      rewrite Hlast.
      replace (length lst - i)%nat with ((length lst - (i + n)) + 1 * n)%nat by lia.
      rewrite Nat.Div0.mod_add; reflexivity.
  - cbn [length]; rewrite Hcount.
    destruct (Nat.eq_dec (length lst - (i + n)) 0) as [E|E].
    + replace (length lst - (i + n) + n - 1)%nat with (n - 1)%nat by lia.
      rewrite Nat.div_small by lia.
      apply (Nat.div_unique _ _ 1 (length lst - i - 1)); lia.
    + replace (length lst - i + n - 1)%nat with ((length lst - (i + n) + n - 1) + 1 * n)%nat
        by lia.
      rewrite Nat.div_add by lia; lia.
Qed.

End Divide.

(** ** C4 *)

(** C4: for a positive [n], [divide lst n] yields contiguous chunks which,
    concatenated in order, give back [lst] (so every element is covered
    exactly once); every chunk but the last has [n] elements, the last has
    [len(lst) % n] of them, or [n] when [n] divides the length; there are
    ceil(len / n) chunks.  On 2500 elements with [n = 1000] the chunk sizes
    are 1000, 1000, 500. *)
Theorem divide_chunks :
  (forall (A : Type) (lst : list A) (n : Z), 0 < n ->
     exists cs, Seller.divide lst n = Some cs /\
       concat cs = lst /\
       Forall (fun c => length c = Z.to_nat n) (removelast cs) /\
       (lst = [] -> cs = []) /\
       (lst <> [] ->
          length (last cs []) =
          if (length lst mod Z.to_nat n =? 0)%nat then Z.to_nat n
          else (length lst mod Z.to_nat n)%nat) /\
       length cs = ((length lst + Z.to_nat n - 1) / Z.to_nat n)%nat)
  /\ option_map (map (@length nat)) (Seller.divide (seq 1 2500) 1000)
     = Some [1000%nat; 1000%nat; 500%nat].
Proof.
  split; [|vm_compute; reflexivity].
  intros A lst n Hn.
  set (k := Z.to_nat n); assert (Ek : n = Z.of_nat k) by (unfold k; lia).
  clearbody k; subst n.
  unfold Seller.divide, Seller.py_range.
  destruct (Z.eqb_spec (Z.of_nat k) 0) as [|_]; [lia|]; cbn [option_map].
  eexists; split; [reflexivity|].
  replace (Z.to_nat (Z.abs (Z.of_nat (length lst) - 0))) with (length lst) by lia.
  destruct (range_chunks lst k ltac:(lia) (length lst) 0 ltac:(lia))
    as (Hcat & Hlen & Hempty & Hlast & Hcount).
  rewrite Nat.sub_0_r in *; unfold chunk_at in *.
  split; [exact Hcat|split; [exact Hlen|split; [|split]]].
  - intros ->; apply Hempty; reflexivity.
  - intros Hne; apply Hlast; destruct lst; [congruence|discriminate].
  - exact Hcount.
Qed.

(** ** C8 *)

(** C8: [divide lst 0] raises (the [ValueError] of [range]) before any
    chunk, and a negative [n] yields no chunk at all, whatever the list. *)
Theorem divide_nonpositive {A} (lst : list A) (n : Z) :
  n <= 0 -> Seller.divide lst n = if n =? 0 then None else Some [].
Proof.
  intros Hn; unfold Seller.divide, Seller.py_range.
  destruct (Z.eqb_spec n 0) as [|Hne]; [reflexivity|].
  destruct (Z.to_nat _) as [|f]; cbn; [reflexivity|].
  destruct (Z.ltb_spec 0 n); [lia|].
  destruct (Z.ltb_spec (Z.of_nat (length lst)) 0); [lia|reflexivity].
Qed.

(** Witness of C8: three elements split with [n = -1]. *)
Lemma divide_nonpositive_witness :
  -1 <= 0 /\ Seller.divide [1%nat; 2%nat; 3%nat] (-1) = Some [].
Proof.
  split; [lia|].
  exact (divide_nonpositive [1%nat; 2%nat; 3%nat] (-1) ltac:(lia)).
Defined.

(** Witness of C4: seven elements in chunks of three. *)
Lemma divide_chunks_witness :
  0 < 3 /\ exists cs, Seller.divide (seq 0 7) 3 = Some cs /\ concat cs = seq 0 7.
Proof.
  split; [lia|].
  destruct (proj1 divide_chunks nat (seq 0 7) 3 ltac:(lia)) as [cs [H1 [H2 _]]].
  exists cs; split; assumption.
Defined.

(** ** [price_conversion] *)

Lemma split_on_first sep a b :
  ~ In sep (list_ascii_of_string a) ->
  Seller.split_on sep (a ++ String sep b) = a :: Seller.split_on sep b.
Proof.
  induction a as [|c a IH]; intros Ha; cbn.
  - rewrite Ascii.eqb_refl; reflexivity.
  - destruct (Ascii.eqb_spec c sep) as [->|Hne]; [exfalso; apply Ha; now left|].
    rewrite IH by (intros H; apply Ha; now right); reflexivity.
Qed.

Lemma split_on_none sep s :
  ~ In sep (list_ascii_of_string s) -> Seller.split_on sep s = [s].
Proof.
  induction s as [|c s IH]; intros Hs; cbn; [reflexivity|].
  destruct (Ascii.eqb_spec c sep) as [->|Hne]; [exfalso; apply Hs; now left|].
  rewrite IH by (intros H; apply Hs; now right); reflexivity.
Qed.

Lemma keep_digits_filter s :
  list_ascii_of_string (Seller.keep_digits s) = filter is_digit (list_ascii_of_string s).
Proof.
  induction s as [|c s IH]; cbn; [reflexivity|].
  destruct (is_digit c); cbn; now rewrite IH.
Qed.

(** ** C5 *)

(** C5: [price_conversion] keeps the digits of the part of the price before
    its first "."; without a ".", the digits of the whole string.  The
    fractional part is dropped, not rounded. *)
Theorem price_conversion_integer_part :
  (forall a b, ~ In "."%char (list_ascii_of_string a) ->
     list_ascii_of_string (Seller.price_conversion (a ++ String "." b))
     = filter is_digit (list_ascii_of_string a)) /\
  (forall s, ~ In "."%char (list_ascii_of_string s) ->
     list_ascii_of_string (Seller.price_conversion s)
     = filter is_digit (list_ascii_of_string s)) /\
  Seller.price_conversion "5'990.00 руб." = "5990" /\
  Seller.price_conversion "123" = "123" /\
  Seller.price_conversion "1.99" = "1".
Proof.
  split; [|split; [|repeat split; reflexivity]].
  - intros a b Ha; unfold Seller.price_conversion.
    rewrite split_on_first by exact Ha; apply keep_digits_filter.
  - intros s Hs; unfold Seller.price_conversion.
    rewrite split_on_none by exact Hs; apply keep_digits_filter.
Qed.

(** ** C9 *)

(** C9: [price_conversion] returns only decimal digits, possibly none:
    on "руб." it returns "", and the Yandex [create_prices], which applies
    [int()] to that result, raises. *)
Theorem price_conversion_digits_or_empty :
  (forall s, Forall (fun c => is_digit c = true)
                    (list_ascii_of_string (Seller.price_conversion s))) /\
  Seller.price_conversion "руб." = "" /\
  py_int (Seller.price_conversion "руб.") = None /\
  fst (Market.create_prices [mk_watch (CStr "A") (CStr "5") "руб."] ["A"]) = None.
Proof.
  split; [|repeat split; reflexivity].
  intros s; unfold Seller.price_conversion; rewrite keep_digits_filter.
  apply Forall_forall; intros c Hc; apply filter_In in Hc; apply Hc.
Qed.

(** ** C10 *)

(** C10: both [create_prices] leave the [offer_ids] list as they found it,
    for every feed (also one on which [create_stocks] raises); a successful
    [create_stocks] (either client) leaves in it the known identifiers
    minus one copy per feed record that matched, in their original relative
    order: with distinct identifiers, exactly those whose code is in no
    feed record. *)
Theorem create_stocks_consumes_matched (feed : list watch) (ids : list string) :
  snd (Seller.create_prices feed ids) = ids /\
  snd (Market.create_prices feed ids) = ids /\
  (forall ids' st, Seller.create_stocks feed ids = (Some st, ids') ->
     (forall wh date, snd (Market.create_stocks feed wh date ids) = ids') /\
     subseq ids' ids /\
     (forall x, count_occ string_dec ids' x
                = (count_occ string_dec ids x
                   - count_occ string_dec (codes feed) x)%nat) /\
     (NoDup ids -> ids' = filter (fun i => negb (py_in i (codes feed))) ids)).
Proof.
  split; [rewrite seller_create_prices_filter; reflexivity|].
  split; [apply market_create_prices_state|].
  intros ids' st H.
  destruct (create_stocks_inv _ _ _ _ H) as [ms [Hl _]].
  split; [intros wh date; rewrite market_create_stocks, H; reflexivity|].
  split; [exact (stocks_loop_subseq _ _ _ _ Hl)|].
  split; [exact (stocks_loop_rest_count _ _ _ _ Hl)|].
  intros Hnd; exact (stocks_loop_rest_NoDup _ _ _ _ Hnd Hl).
Qed.

(** Witness of C10 on the spec's reconciliation example, and on a feed
    whose listed record has an unreadable quantity: [create_stocks] raises
    there, and [create_prices] still leaves the list as it was. *)
Lemma create_stocks_consumes_matched_witness :
  Seller.create_stocks feed_ab ["A"; "B"; "C"]
  = (Some [Seller.mk_stock "A" 100; Seller.mk_stock "B" 0;
           Seller.mk_stock "C" 0], ["C"])
  /\ subseq ["C"] ["A"; "B"; "C"]
  /\ fst (Seller.create_stocks [mk_watch (CStr "A") (CStr "n/a") "10.00"] ["A"]) = None
  /\ snd (Seller.create_prices [mk_watch (CStr "A") (CStr "n/a") "10.00"] ["A"]) = ["A"].
Proof.
  assert (H : Seller.create_stocks feed_ab ["A"; "B"; "C"]
              = (Some [Seller.mk_stock "A" 100; Seller.mk_stock "B" 0;
                       Seller.mk_stock "C" 0], ["C"])) by reflexivity.
  split; [exact H|split; [|split; [reflexivity|]]].
  - exact (proj1 (proj2 (proj2 (proj2 (create_stocks_consumes_matched _ _))
                           _ _ H))).
  - exact (proj1 (create_stocks_consumes_matched
                    [mk_watch (CStr "A") (CStr "n/a") "10.00"] ["A"])).
Defined.

(** ** C6 *)

(** C6 (counterexample): when [pd.read_excel] raises on the extracted
    "ostatki.xls", [download_stock] raises and the file is still there. *)
Lemma download_stock_parse_error_leaves_file :
  Download.download_stock (Download.Extracted [Download.excel_file]) None []
  = (None, [Download.excel_file]).
Proof. reflexivity. Qed.

(** C6 (amended): for an archive holding "ostatki.xls", [download_stock]
    returns the parsed rows and leaves no "ostatki.xls" behind when parsing
    succeeds; when parsing raises, the error propagates and the extracted
    file stays in the working directory. *)
Theorem download_stock_cleanup (members : list string)
  (parsed : option (list watch)) (fs : list string) :
  In Download.excel_file members ->
  let r := Download.download_stock (Download.Extracted members) parsed fs in
  (parsed <> None -> fst r = parsed /\ ~ In Download.excel_file (snd r)) /\
  (parsed = None -> fst r = None /\ In Download.excel_file (snd r)).
Proof.
  intros Hin r; unfold r, Download.download_stock.
  assert (Hin' : py_in Download.excel_file (members ++ fs)%list = true)
    by (apply py_in_In, in_or_app; left; exact Hin).
  rewrite Hin'; cbn [negb].
  destruct parsed as [rows|]; split; intros Hp; try congruence; cbn.
  - split; [reflexivity|].
    unfold Download.fs_remove; intros Hf; apply filter_In in Hf as [_ Hf].
    rewrite String.eqb_refl in Hf; discriminate.
  - split; [reflexivity|apply in_or_app; left; exact Hin].
Qed.

(** Witness of C6: an archive holding only "ostatki.xls", parsed into the
    example feed. *)
Lemma download_stock_cleanup_witness :
  In Download.excel_file [Download.excel_file] /\
  fst (Download.download_stock (Download.Extracted [Download.excel_file]) (Some feed_ab) [])
  = Some feed_ab.
Proof.
  assert (Hin : In Download.excel_file [Download.excel_file]) by (left; reflexivity).
  split; [exact Hin|].
  refine (proj1 (proj1 (download_stock_cleanup [Download.excel_file] (Some feed_ab) [] Hin)
                  _)).
  discriminate.
Defined.

(** ** Paging loops *)

Lemma first_true (P : nat -> bool) j :
  P j = true -> exists j0, P j0 = true /\ forall i, (i < j0)%nat -> P i = false.
Proof.
  induction j as [j IH] using (well_founded_induction lt_wf); intros Hj.
  destruct (existsb P (seq 0 j)) eqn:E.
  - apply existsb_exists in E as [i [Hi Pi]]; apply in_seq in Hi.
    apply (IH i); [lia|exact Pi].
  - exists j; split; [exact Hj|].
    intros i Hi; destruct (P i) eqn:Pi; [|reflexivity].
    assert (existsb P (seq 0 j) = true)
      by (apply existsb_exists; exists i; split; [apply in_seq; lia|exact Pi]).
    congruence.
Qed.

Section PagingProofs.
Variables (Page Tok : Type).
Variable server : nat -> Tok -> Page.
Variable page_items : Page -> list string.
Variable next_token : Page -> Tok.
Variable stop : Page -> list string -> bool.
Variable init : Tok.

Local Abbreviation state k := (paging_state server page_items next_token init k).
Local Abbreviation signal k := (signal_at server page_items next_token stop init k).
Local Abbreviation loop fuel k :=
  (paging_loop server page_items next_token stop fuel k
     (fst (state k)) (snd (state k))).

Lemma loop_step f k :
  loop (S f) k = if signal k then Some (S k, snd (state (S k))) else loop f (S k).
Proof.
  assert (E : state (S k)
              = let (tok, acc) := state k in
                (next_token (server k tok), acc ++ page_items (server k tok))%list)
    by reflexivity.
  rewrite E; unfold signal_at.
  destruct (paging_state server page_items next_token init k) as [tok acc].
  reflexivity.
Qed.

Lemma loop_result fuel : forall k m res,
  loop fuel k = Some (m, res) ->
  exists j, m = S j /\ (k <= j < k + fuel)%nat /\ signal j = true /\
    (forall i, (k <= i < j)%nat -> signal i = false) /\ res = snd (state (S j)).
Proof.
  induction fuel as [|f IH]; intros k m res H; [discriminate|].
  rewrite loop_step in H; destruct (signal k) eqn:Sk.
  - injection H as <- <-; exists k; repeat split; auto; try lia.
  - destruct (IH _ _ _ H) as (j & -> & Hj & Sj & Hbefore & ->).
    exists j; repeat split; auto; try lia.
    intros i Hi; destruct (Nat.eq_dec i k) as [->|]; [exact Sk|apply Hbefore; lia].
Qed.

Lemma loop_first_signal j : forall fuel k,
  (k <= j < k + fuel)%nat -> signal j = true ->
  (forall i, (k <= i < j)%nat -> signal i = false) ->
  loop fuel k = Some (S j, snd (state (S j))).
Proof.
  induction fuel as [|f IH]; intros k Hk Sj Hbefore; [lia|].
  rewrite loop_step.
  destruct (Nat.eq_dec k j) as [->|Hne]; [now rewrite Sj|].
  rewrite (Hbefore k ltac:(lia)); apply IH; [lia|exact Sj|].
  intros i Hi; apply Hbefore; lia.
Qed.

Lemma loop_no_signal fuel : forall k,
  (forall i, (k <= i < k + fuel)%nat -> signal i = false) -> loop fuel k = None.
Proof.
  induction fuel as [|f IH]; intros k H; [reflexivity|].
  rewrite loop_step, (H k ltac:(lia)); apply IH; intros i Hi; apply H; lia.
Qed.

(** The loop started with the initial token stops after request [j] exactly
    when [j] is the first request whose answer raises the signal, runs on
    forever when no answer raises it, and stops whenever one does. *)
Lemma paging_stop_signal :
  (forall fuel m res, loop fuel 0 = Some (m, res) ->
     exists j, m = S j /\ signal j = true /\
       (forall i, (i < j)%nat -> signal i = false) /\ res = snd (state (S j))) /\
  (forall j fuel, (j < fuel)%nat -> signal j = true ->
     (forall i, (i < j)%nat -> signal i = false) ->
     loop fuel 0 = Some (S j, snd (state (S j)))) /\
  (forall fuel, (forall i, (i < fuel)%nat -> signal i = false) -> loop fuel 0 = None) /\
  ((exists j, signal j = true) -> exists fuel r, loop fuel 0 = Some r).
Proof.
  split; [|split; [|split]].
  - intros fuel m res H.
    destruct (loop_result _ _ _ _ H) as (j & Hm & _ & Sj & Hb & Hr).
    exists j; repeat split; auto; intros i Hi; apply Hb; lia.
  - intros j fuel Hj Sj Hb; apply loop_first_signal; auto; [lia|].
    intros i Hi; apply Hb; lia.
  - intros fuel H; apply loop_no_signal; intros i Hi; apply H; lia.
  - intros [j Sj].
    destruct (first_true (fun i => signal i) j Sj) as [j0 [Sj0 Hb]].
    exists (S j0), (S j0, snd (state (S j0))).
    apply loop_first_signal; auto; [lia|].
    intros i Hi; apply Hb; lia.
Qed.

End PagingProofs.

(** ** C7 *)

(** C7: for any server behaviour, the Ozon [get_offer_ids] stops right after
    the first answer whose reported total equals the number of products
    accumulated, the Yandex one right after the first answer with an empty or
    absent [nextPageToken], returning the products accumulated so far; each
    loop runs on as long as its signal has not occurred, and terminates
    whenever the signal eventually occurs. *)
Theorem get_offer_ids_stop_signal :
  (forall server,
     (forall fuel m res, Ozon.get_offer_ids server fuel = Some (m, res) ->
        exists j, m = S j /\ Ozon.stop_signal server j = true /\
          (forall i, (i < j)%nat -> Ozon.stop_signal server i = false) /\
          res = Ozon.products_until server (S j)) /\
     (forall j fuel, (j < fuel)%nat -> Ozon.stop_signal server j = true ->
        (forall i, (i < j)%nat -> Ozon.stop_signal server i = false) ->
        Ozon.get_offer_ids server fuel = Some (S j, Ozon.products_until server (S j))) /\
     (forall fuel, (forall i, (i < fuel)%nat -> Ozon.stop_signal server i = false) ->
        Ozon.get_offer_ids server fuel = None) /\
     ((exists j, Ozon.stop_signal server j = true) ->
        exists fuel r, Ozon.get_offer_ids server fuel = Some r)) /\
  (forall server,
     (forall fuel m res, Yandex.get_offer_ids server fuel = Some (m, res) ->
        exists j, m = S j /\ Yandex.stop_signal server j = true /\
          (forall i, (i < j)%nat -> Yandex.stop_signal server i = false) /\
          res = Yandex.products_until server (S j)) /\
     (forall j fuel, (j < fuel)%nat -> Yandex.stop_signal server j = true ->
        (forall i, (i < j)%nat -> Yandex.stop_signal server i = false) ->
        Yandex.get_offer_ids server fuel = Some (S j, Yandex.products_until server (S j))) /\
     (forall fuel, (forall i, (i < fuel)%nat -> Yandex.stop_signal server i = false) ->
        Yandex.get_offer_ids server fuel = None) /\
     ((exists j, Yandex.stop_signal server j = true) ->
        exists fuel r, Yandex.get_offer_ids server fuel = Some r)).
Proof.
  split; intros server.
  - exact (paging_stop_signal _ _ server Ozon.items Ozon.last_id
             Ozon.total_reached "").
  - exact (paging_stop_signal _ _ server Yandex.offerMappingEntries
             Yandex.nextPageToken Yandex.no_more_pages (Some "")).
Qed.

Example ozon_two_pages_run :
  Ozon.get_offer_ids ozon_two_pages 10 = Some (2%nat, ["a"; "b"; "c"]).
Proof. reflexivity. Qed.

Example yandex_two_pages_run :
  Yandex.get_offer_ids yandex_two_pages 10 = Some (2%nat, ["x"; "y"]).
Proof. reflexivity. Qed.

(** * Further properties of the code *)

(** ** [int()] on ASCII digits, and [int(str(z))] *)

(** Case on every boolean comparison of [Z] left in the goal. *)
Ltac zbool :=
  repeat lazymatch goal with
         | |- context [(?x =? ?y)%Z] => case (Z.eqb_spec x y)
         | |- context [(?x <? ?y)%Z] => case (Z.ltb_spec x y)
         | |- context [(?x <=? ?y)%Z] => case (Z.leb_spec x y)
         end; intros; cbn; try reflexivity; try lia.

Lemma digit_code c :
  is_digit c = true -> 48 <= Z.of_nat (nat_of_ascii c) <= 57.
Proof.
  unfold is_digit; intros H; apply andb_true_iff in H as [H1 H2].
  apply Nat.leb_le in H1; apply Nat.leb_le in H2; lia.
Qed.

Lemma utf8_decode_ascii l :
  Forall (fun c => Z.of_nat (nat_of_ascii c) < 128) l ->
  utf8_decode l = map (fun c => Z.of_nat (nat_of_ascii c)) l.
Proof.
  induction l as [|c l IH]; intros H; [reflexivity|].
  inversion H as [|? ? Hc Hl]; subst; cbn [utf8_decode map]; cbv zeta.
  replace (Z.of_nat (nat_of_ascii c) <? 0x80) with true by (symmetry; apply Z.ltb_lt; lia).
  rewrite IH by exact Hl; reflexivity.
Qed.

Lemma transform_ascii l :
  Forall (fun c => c < 127) l -> transform_decimal_and_space l = l.
Proof.
  induction l as [|c l IH]; intros H; [reflexivity|].
  inversion H as [|? ? Hc Hl]; subst; cbn.
  replace (c <? 127) with true by (symmetry; apply Z.ltb_lt; lia).
  rewrite IH by exact Hl; reflexivity.
Qed.

Lemma scan_digits_all ds : forall a n prev,
  Forall (fun c => is_digit c = true) ds -> ds <> [] ->
  scan_digits (map (fun c => Z.of_nat (nat_of_ascii c)) ds) a n prev
  = Some (fold_left digit_step ds a, (n + length ds)%nat, []).
Proof.
  induction ds as [|c ds IH]; intros a n prev H Hne; [congruence|].
  inversion H as [|? ? Hc Hl]; subst.
  pose proof (digit_code c Hc) as Hb.
  cbn [map scan_digits].
  replace (is_digit_cp (Z.of_nat (nat_of_ascii c))) with true
    by (unfold is_digit_cp; zbool).
  destruct ds as [|d ds].
  - replace (n + length [c])%nat with (S n) by (cbn; lia); reflexivity.
  - rewrite IH by (assumption || discriminate).
    replace (S n + length (d :: ds))%nat with (n + length (c :: d :: ds))%nat
      by (cbn; lia).
    reflexivity.
Qed.

Lemma long_from_string_digits (sign : Z) (pre : list Z) ds :
  Forall (fun c => is_digit c = true) ds -> ds <> [] ->
  (pre = [] /\ sign = 1 \/ pre = [45] /\ sign = -1) ->
  long_from_string (pre ++ map (fun c => Z.of_nat (nat_of_ascii c)) ds)
  = if (max_str_digits <? length ds)%nat then None
    else Some (sign * digits_value ds).
Proof.
  intros H Hne Hpre.
  destruct ds as [|c r]; [congruence|].
  pose proof (digit_code c (Forall_inv H)) as Hb.
  assert (Hs : py_isspace (Z.of_nat (nat_of_ascii c)) = false)
    by (unfold py_isspace; zbool).
  set (l := map (fun c => Z.of_nat (nat_of_ascii c)) (c :: r)).
  assert (Hl : skip_spaces l = l)
    by (unfold l; cbn [map skip_spaces]; rewrite Hs; reflexivity).
  assert (Hd : scan_digits l 0 0 false
               = Some (digits_value (c :: r), length (c :: r), []))
    by (unfold l; rewrite scan_digits_all by (assumption || discriminate);
        reflexivity).
  unfold long_from_string.
  destruct Hpre as [[-> ->]|[-> ->]].
  - rewrite app_nil_l, Hl.
    replace (match l with
             | [] => (1, l)
             | c0 :: r0 => if c0 =? 43 then (1, r0)
                           else if c0 =? 45 then (-1, r0) else (1, l)
             end) with (1, l)
      by (unfold l; cbn [map]; zbool).
    rewrite Hd; destruct (max_str_digits <? length (c :: r))%nat; reflexivity.
  - change (([45] ++ l)%list) with (45 :: l).
    change (skip_spaces (45 :: l)) with (45 :: l).
    cbv beta iota zeta.
    change (45 =? 43) with false; change (45 =? 45) with true.
    cbv beta iota zeta.
    rewrite Hd; destruct (max_str_digits <? length (c :: r))%nat; reflexivity.
Qed.

Lemma digits_ascii ds :
  Forall (fun c => is_digit c = true) ds ->
  Forall (fun c => Z.of_nat (nat_of_ascii c) < 128) ds /\
  Forall (fun c => c < 127) (map (fun c => Z.of_nat (nat_of_ascii c)) ds).
Proof.
  intros H; split.
  - refine (Forall_impl _ _ H); intros c Hc; pose proof (digit_code c Hc); lia.
  - apply Forall_map; refine (Forall_impl _ _ H); intros c Hc.
    pose proof (digit_code c Hc); lia.
Qed.

(** [int()] of a non-empty string of ASCII digits, signed or not. *)
Lemma py_int_ascii_digits s ds :
  list_ascii_of_string s = ds ->
  Forall (fun c => is_digit c = true) ds -> ds <> [] ->
  py_int s = if (max_str_digits <? length ds)%nat then None
             else Some (digits_value ds).
Proof.
  intros Hs H Hne; destruct (digits_ascii ds H) as [H1 H2].
  unfold py_int; rewrite Hs, utf8_decode_ascii, transform_ascii by assumption.
  pose proof (long_from_string_digits 1 [] ds H Hne (or_introl (conj eq_refl eq_refl)))
    as E.
  cbn [app] in E; rewrite E.
  destruct (max_str_digits <? _)%nat; [reflexivity|].
  rewrite Z.mul_1_l; reflexivity.
Qed.

Lemma py_int_ascii_neg_digits s ds :
  list_ascii_of_string s = ("-"%char :: ds) ->
  Forall (fun c => is_digit c = true) ds -> ds <> [] ->
  py_int s = if (max_str_digits <? length ds)%nat then None
             else Some (- digits_value ds).
Proof.
  intros Hs H Hne; destruct (digits_ascii ds H) as [H1 H2].
  unfold py_int; rewrite Hs, utf8_decode_ascii.
  2:{ constructor; [cbn; lia|exact H1]. }
  rewrite transform_ascii.
  2:{ constructor; [cbn; lia|exact H2]. }
  pose proof (long_from_string_digits (-1) [45] ds H Hne
                (or_intror (conj eq_refl eq_refl))) as E.
  change ([45] ++ map (fun c => Z.of_nat (nat_of_ascii c)) ds)%list
    with (map (fun c => Z.of_nat (nat_of_ascii c)) ("-"%char :: ds)) in E.
  rewrite E.
  destruct (max_str_digits <? _)%nat; [reflexivity|].
  f_equal; lia.
Qed.

Lemma digit_char (d : N) : (d < 10)%N ->
  is_digit (ascii_of_N (48 + d)) = true /\ digit_val (ascii_of_N (48 + d)) = Z.of_N d.
Proof.
  intros Hd; unfold is_digit, digit_val, nat_of_ascii.
  rewrite N_ascii_embedding by lia.
  split; [apply andb_true_iff; split; apply Nat.leb_le; lia | lia].
Qed.

(** [n_repr_aux] writes the digits of [n], with no leading zero. *)
Lemma n_repr_aux_digits fuel : forall n acc,
  (0 < fuel)%nat -> Z.of_N n < 10 ^ Z.of_nat fuel ->
  exists ds, ds <> [] /\ Forall (fun c => is_digit c = true) ds /\
    digits_value ds = Z.of_N n /\
    Z.of_N n < 10 ^ Z.of_nat (length ds) /\
    (n <> 0%N -> 10 ^ Z.of_nat (length ds) <= 10 * Z.of_N n) /\
    list_ascii_of_string (n_repr_aux fuel n acc) = (ds ++ list_ascii_of_string acc)%list.
Proof.
  induction fuel as [|f IH]; intros n acc Hf Hn; [lia|].
  cbn [n_repr_aux].
  pose proof (N.div_mod n 10 ltac:(discriminate)) as Hdm.
  pose proof (N.mod_lt n 10 ltac:(discriminate)) as Hlt.
  destruct (digit_char (n mod 10) Hlt) as [Hdig Hval].
  set (ch := ascii_of_N (48 + n mod 10)) in *.
  set (q := (n / 10)%N) in *; set (d := (n mod 10)%N) in *.
  clearbody q d.
  destruct (N.eqb_spec q 0) as [Hq|Hq].
  - exists [ch]; split; [discriminate|split; [|split; [|split; [|split]]]].
    + constructor; [exact Hdig|constructor].
    + unfold digits_value; cbn; unfold digit_step; rewrite Hval; lia.
    + change (10 ^ Z.of_nat (length [ch])) with 10; lia.
    + intros Hn0; change (10 ^ Z.of_nat (length [ch])) with 10; lia.
    + reflexivity.
  - assert (Hpow : 10 ^ Z.of_nat (S f) = 10 * 10 ^ Z.of_nat f)
      by (rewrite Nat2Z.inj_succ, Z.pow_succ_r by lia; reflexivity).
    assert (Hf' : (0 < f)%nat).
    { destruct f; [|lia]. cbn in Hpow; lia. }
    destruct (IH q (String ch acc) Hf' ltac:(lia))
      as (ds & Hne & Hall & Hv & Hup & Hlo & Hl).
    exists (ds ++ [ch])%list; split; [|split; [|split; [|split; [|split]]]].
    + intros E; apply app_eq_nil in E as [_ E]; discriminate.
    + apply Forall_app; split; [exact Hall | constructor; [exact Hdig|constructor]].
    + unfold digits_value in *; rewrite fold_left_app, Hv; cbn.
      unfold digit_step; rewrite Hval; lia.
    + rewrite length_app, Nat2Z.inj_add, Z.pow_add_r by lia.
      change (10 ^ Z.of_nat (length [ch])) with 10; lia.
    + intros _; specialize (Hlo Hq).
      rewrite length_app, Nat2Z.inj_add, Z.pow_add_r by lia.
      change (10 ^ Z.of_nat (length [ch])) with 10; lia.
    + rewrite Hl, <- app_assoc; reflexivity.
Qed.

Lemma size_nat_bound p :
  (0 < Pos.size_nat p)%nat /\ Z.pos p < 10 ^ Z.of_nat (Pos.size_nat p).
Proof.
  induction p as [p [H1 H2]|p [H1 H2]|]; cbn [Pos.size_nat]; split; try lia;
    rewrite Nat2Z.inj_succ, Z.pow_succ_r by lia; lia.
Qed.

(** The digits [str()] writes for a positive [p]: at most 4300 of them
    exactly when [p < 10 ^ 4300]. *)
Lemma z_repr_pos_digits p :
  exists ds, ds <> [] /\ Forall (fun c => is_digit c = true) ds /\
    digits_value ds = Z.pos p /\
    list_ascii_of_string (n_repr_aux (Pos.size_nat p) (Npos p) "") = ds /\
    (max_str_digits <? length ds)%nat = negb (Z.pos p <? 10 ^ 4300).
Proof.
  destruct (size_nat_bound p) as [H1 H2].
  destruct (n_repr_aux_digits _ (Npos p) "" H1 H2)
    as (ds & Hne & Hall & Hv & Hup & Hlo & Hl).
  specialize (Hlo ltac:(discriminate)).
  change (list_ascii_of_string "") with (@nil ascii) in Hl.
  rewrite app_nil_r in Hl.
  exists ds; split; [exact Hne|split; [exact Hall|split; [exact Hv|split; [exact Hl|]]]].
  cbn [Z.of_N] in Hup, Hlo.
  unfold max_str_digits.
  destruct (Nat.ltb_spec 4300 (length ds)) as [Hg|Hg].
  - assert (Hp : 10 ^ 4301 <= 10 ^ Z.of_nat (length ds))
      by (apply Z.pow_le_mono_r; lia).
    replace (10 ^ 4301) with (10 * 10 ^ 4300) in Hp
      by (rewrite <- Z.pow_succ_r by lia; reflexivity).
    generalize dependent (10 ^ 4300); intros B Hp.
    destruct (Z.ltb_spec (Z.pos p) B); [lia|reflexivity].
  - assert (Hp : 10 ^ Z.of_nat (length ds) <= 10 ^ 4300)
      by (apply Z.pow_le_mono_r; lia).
    generalize dependent (10 ^ 4300); intros B Hp.
    destruct (Z.ltb_spec (Z.pos p) B); [reflexivity|lia].
Qed.

Lemma py_int_z_repr z :
  py_int (z_repr z) = if Z.abs z <? 10 ^ 4300 then Some z else None.
Proof.
  destruct z as [|p|p]; [reflexivity| |].
  - destruct (z_repr_pos_digits p) as (ds & Hne & Hall & Hv & Hl & Hlen).
    change (z_repr (Z.pos p)) with (n_repr_aux (Pos.size_nat p) (Npos p) "").
    rewrite (py_int_ascii_digits _ ds Hl Hall Hne), Hlen, Hv; cbn [Z.abs].
    destruct (_ <? _); reflexivity.
  - destruct (z_repr_pos_digits p) as (ds & Hne & Hall & Hv & Hl & Hlen).
    assert (Hs : list_ascii_of_string (z_repr (Z.neg p)) = ("-"%char :: ds))
      by (cbn [z_repr list_ascii_of_string]; rewrite Hl; reflexivity).
    rewrite (py_int_ascii_neg_digits _ ds Hs Hall Hne), Hlen, Hv; cbn [Z.abs].
    destruct (_ <? _); reflexivity.
Qed.

Lemma cell_bound_digits z : Z.abs z < 2 ^ 1024 -> (Z.abs z <? 10 ^ 4300) = true.
Proof.
  intros Hz; apply Z.ltb_lt.
  assert (Hb : 2 ^ 1024 < 10 ^ 4300) by (apply Z.ltb_lt; reflexivity).
  lia.
Qed.

Lemma quantize_str_cell q : quantize (str_cell q) = quantize q.
Proof.
  destruct q as [z Hz|s]; [|reflexivity].
  unfold quantize, str_cell; cbn [py_str py_int_cell].
  rewrite py_int_z_repr, cell_bound_digits by exact Hz; reflexivity.
Qed.

Lemma stocks_loop_as_text feed :
  Seller.stocks_loop (map as_text feed) = Seller.stocks_loop feed.
Proof.
  induction feed as [|w rest IH]; [reflexivity|].
  cbn [map Seller.stocks_loop].
  change (py_str (code (as_text w))) with (py_str (code w)).
  change (quantity (as_text w)) with (str_cell (quantity w)).
  rewrite quantize_str_cell, IH; reflexivity.
Qed.

Lemma seller_create_prices_as_text feed :
  Seller.create_prices (map as_text feed) = Seller.create_prices feed.
Proof.
  induction feed as [|w rest IH]; [reflexivity|].
  cbn [map Seller.create_prices].
  change (py_str (code (as_text w))) with (py_str (code w)).
  rewrite IH; reflexivity.
Qed.

Lemma market_create_prices_as_text feed :
  Market.create_prices (map as_text feed) = Market.create_prices feed.
Proof.
  induction feed as [|w rest IH]; [reflexivity|].
  cbn [map Market.create_prices].
  change (py_str (code (as_text w))) with (py_str (code w)).
  rewrite IH; reflexivity.
Qed.

(** X1: whether the spreadsheet's "Код" and "Количество" cells come as
    integers or as the strings [str()] gives for them makes no difference:
    both [create_stocks] and both [create_prices] return the same result and
    leave [offer_ids] the same way.  [int()] reads back the text of every
    integer below [10 ^ 4300] in absolute value (all that a cell can hold)
    and refuses the longer ones. *)
Theorem cell_types_irrelevant (feed : list watch) (ids : list string) :
  (forall z, py_int (z_repr z) = if Z.abs z <? 10 ^ 4300 then Some z else None) /\
  Seller.create_stocks (map as_text feed) ids = Seller.create_stocks feed ids /\
  Seller.create_prices (map as_text feed) ids = Seller.create_prices feed ids /\
  (forall wh date, Market.create_stocks (map as_text feed) wh date ids
                   = Market.create_stocks feed wh date ids) /\
  Market.create_prices (map as_text feed) ids = Market.create_prices feed ids.
Proof.
  assert (Hs : Seller.create_stocks (map as_text feed) ids = Seller.create_stocks feed ids)
    by (unfold Seller.create_stocks; rewrite stocks_loop_as_text; reflexivity).
  split; [exact py_int_z_repr|split; [exact Hs|split; [|split]]].
  - rewrite seller_create_prices_as_text; reflexivity.
  - intros wh date; rewrite !market_create_stocks, Hs; reflexivity.
  - rewrite market_create_prices_as_text; reflexivity.
Qed.

(** ** Prices *)

Lemma price_conversion_digits s :
  Forall (fun c => is_digit c = true)
         (list_ascii_of_string (Seller.price_conversion s)).
Proof.
  unfold Seller.price_conversion; rewrite keep_digits_filter.
  apply Forall_forall; intros c Hc; apply filter_In in Hc; apply Hc.
Qed.

Lemma keep_digits_id s :
  Forall (fun c => is_digit c = true) (list_ascii_of_string s) ->
  Seller.keep_digits s = s.
Proof.
  induction s as [|c s IH]; intros H; [reflexivity|].
  inversion H as [|? ? Hc Hs]; subst; cbn; rewrite Hc, IH by exact Hs; reflexivity.
Qed.

(** X2: [price_conversion] is idempotent: its result has no "." and only
    digits, so converting it again changes nothing. *)
Theorem price_conversion_idempotent (s : string) :
  Seller.price_conversion (Seller.price_conversion s) = Seller.price_conversion s.
Proof.
  pose proof (price_conversion_digits s) as H.
  unfold Seller.price_conversion at 1.
  rewrite split_on_none.
  - apply keep_digits_id, H.
  - intros Hin; rewrite Forall_forall in H; specialize (H _ Hin).
    discriminate H.
Qed.

Lemma string_length_ascii s : length (list_ascii_of_string s) = String.length s.
Proof. induction s as [|c s IH]; cbn; [reflexivity|now rewrite IH]. Qed.

(** [int()] of a converted price: [ValueError] exactly when it is empty or
    has more than 4300 digits, otherwise its decimal value. *)
Lemma py_int_price_conversion s :
  py_int (Seller.price_conversion s)
  = if String.eqb (Seller.price_conversion s) "" then None
    else if (max_str_digits <? String.length (Seller.price_conversion s))%nat
    then None
    else Some (digits_value (list_ascii_of_string (Seller.price_conversion s))).
Proof.
  pose proof (price_conversion_digits s) as H.
  set (p := Seller.price_conversion s) in *; clearbody p.
  destruct (String.eqb_spec p "") as [->|Hne]; [reflexivity|].
  assert (Hl : list_ascii_of_string p <> []) by (destruct p; [congruence|discriminate]).
  rewrite (py_int_ascii_digits p _ eq_refl H Hl), string_length_ascii; reflexivity.
Qed.

Lemma py_int_price_conversion_none s :
  py_int (Seller.price_conversion s) = None <->
  Seller.price_conversion s = "" \/
  (4300 < String.length (Seller.price_conversion s))%nat.
Proof.
  rewrite py_int_price_conversion; unfold max_str_digits.
  destruct (String.eqb_spec (Seller.price_conversion s) "") as [E|E].
  - split; [intros _; left; exact E|reflexivity].
  - destruct (Nat.ltb_spec 4300 (String.length (Seller.price_conversion s))) as [L|L].
    + split; [intros _; right; exact L|reflexivity].
    + split; [discriminate|intros [H|H]; [contradiction|lia]].
Qed.

Lemma digits_value_nonneg l : forall a,
  Forall (fun c => is_digit c = true) l -> 0 <= a -> 0 <= fold_left digit_step l a.
Proof.
  induction l as [|c l IH]; intros a H Ha; [exact Ha|].
  inversion H as [|? ? Hc Hl]; subst; cbn; apply IH; [exact Hl|].
  unfold digit_step, digit_val, is_digit in *.
  apply andb_true_iff in Hc as [Hc _]; apply Nat.leb_le in Hc; lia.
Qed.

(** The Yandex [create_prices]: a filter of the feed on membership of the
    code, raising when [int()] refuses a kept record's converted price. *)
Lemma market_create_prices_filter feed ids :
  fst (Market.create_prices feed ids)
  = let sel := filter (fun w => py_in (py_str (code w)) ids) feed in
    if forallb price_parses sel then Some (map market_price_of sel) else None.
Proof.
  induction feed as [|w rest IH]; [reflexivity|].
  cbn [Market.create_prices]; unfold bind, get, ret, raise; cbn beta iota.
  cbn [filter]; destruct (py_in (py_str (code w)) ids); [|exact IH].
  cbn [forallb map]; unfold price_parses at 1.
  destruct (py_int (Seller.price_conversion (price w))) as [v|] eqn:Hv;
    [|reflexivity].
  assert (Ev : v = digits_value (list_ascii_of_string
                                   (Seller.price_conversion (price w)))).
  { rewrite py_int_price_conversion in Hv.
    destruct (String.eqb _ _); [discriminate|].
    destruct (_ <? _)%nat; [discriminate|injection Hv as <-; reflexivity]. }
  subst v; cbn [andb].
  pose proof (market_create_prices_state rest ids) as Hs.
  destruct (Market.create_prices rest ids) as [[tl|] s'] eqn:E;
    cbn in Hs, IH |- *; subst s'.
  - destruct (forallb _ _); [|discriminate]; injection IH as <-; reflexivity.
  - destruct (forallb _ _); [discriminate|reflexivity].
Qed.

(** X3: the Yandex [create_prices] raises exactly when some feed record
    whose code is in [offer_ids] has a price that [price_conversion] turns
    into "" (no digit before its first ".") or into more than 4300 digits,
    which [int()] refuses. *)
Theorem market_create_prices_raises (feed : list watch) (ids : list string) :
  fst (Market.create_prices feed ids) = None <->
  exists w, In w feed /\ py_in (py_str (code w)) ids = true /\
            (Seller.price_conversion (price w) = "" \/
             (4300 < String.length (Seller.price_conversion (price w)))%nat).
Proof.
  rewrite market_create_prices_none; split.
  - intros [w [Hw [Hin Hp]]]; exists w; split; [exact Hw|split; [exact Hin|]].
    apply py_int_price_conversion_none, Hp.
  - intros [w [Hw [Hin Hp]]]; exists w; split; [exact Hw|split; [exact Hin|]].
    apply py_int_price_conversion_none, Hp.
Qed.

Lemma Forall2_map_same {A B C} (R : B -> C -> Prop) (f : A -> B) (g : A -> C) l :
  (forall x, In x l -> R (f x) (g x)) -> Forall2 R (map f l) (map g l).
Proof.
  induction l as [|x l IH]; intros H; constructor.
  - apply H; now left.
  - apply IH; intros y Hy; apply H; now right.
Qed.

(** X4: when the Yandex [create_prices] returns, its entries pair up, in
    order, with the Ozon [create_prices] entries for the same feed and
    identifiers: same identifier, currency "RUR", and a value that is the
    non-negative integer [int()] reads from the Ozon price string. *)
Theorem market_prices_match_seller (feed : list watch) (ids : list string)
  (ps : list Market.price_entry) :
  fst (Market.create_prices feed ids) = Some ps ->
  exists sps, Seller.create_prices feed ids = (Some sps, ids) /\
    Forall2 (fun mp sp =>
               Market.id mp = Seller.p_offer_id sp /\
               Market.currencyId mp = "RUR" /\
               py_int (Seller.p_price sp) = Some (Market.value mp) /\
               0 <= Market.value mp) ps sps.
Proof.
  rewrite market_create_prices_filter; cbv zeta.
  destruct (forallb _ _) eqn:E; [|discriminate]; intros H; injection H as <-.
  eexists; split; [apply seller_create_prices_filter|].
  apply Forall2_map_same; intros w Hw.
  rewrite forallb_forall in E; specialize (E w Hw).
  cbn; split; [reflexivity|split; [reflexivity|split]].
  - unfold price_parses in E; cbn [Seller.p_price seller_price_of Market.value market_price_of].
    rewrite py_int_price_conversion in E |- *.
    destruct (String.eqb _ ""); [discriminate|].
    destruct (_ <? _)%nat; [discriminate|reflexivity].
  - apply digits_value_nonneg; [apply price_conversion_digits|lia].
Qed.

(** Witness of X4: the example feed with both codes listed. *)
Lemma market_prices_match_seller_witness :
  fst (Market.create_prices feed_ab ["A"; "B"])
  = Some [Market.mk_price "A" 100 "RUR"; Market.mk_price "B" 50 "RUR"] /\
  exists sps, Seller.create_prices feed_ab ["A"; "B"] = (Some sps, ["A"; "B"]).
Proof.
  assert (H : fst (Market.create_prices feed_ab ["A"; "B"])
              = Some [Market.mk_price "A" 100 "RUR"; Market.mk_price "B" 50 "RUR"])
    by reflexivity.
  split; [exact H|].
  destruct (market_prices_match_seller _ _ _ H) as [sps [Hs _]].
  exists sps; exact Hs.
Defined.

(** ** What [create_stocks] looks at *)

Lemma stocks_loop_listed feed ids : forall s,
  incl s ids ->
  Seller.stocks_loop feed s
  = Seller.stocks_loop (filter (fun w => py_in (py_str (code w)) ids) feed) s.
Proof.
  induction feed as [|w rest IH]; intros s Hs; [reflexivity|].
  cbn [filter]; destruct (py_in (py_str (code w)) ids) eqn:Hids.
  - cbn [Seller.stocks_loop]; unfold bind, get, ret, list_remove; cbn beta iota.
    destruct (py_in (py_str (code w)) s); [|apply IH, Hs].
    rewrite quantize_state; destruct (quantize_value (quantity w)); [|reflexivity].
    destruct (remove_first (py_str (code w)) s) as [r|] eqn:Hr; [|reflexivity].
    rewrite (IH r); [reflexivity|].
    intros x Hx; apply Hs, (Permutation_in _ (Permutation_sym (remove_first_perm _ _ _ Hr))).
    now right.
  - cbn [Seller.stocks_loop]; unfold bind, get; cbn beta iota.
    assert (Hs' : py_in (py_str (code w)) s = false).
    { apply py_in_false; intros Hin; apply py_in_false in Hids; exact (Hids (Hs _ Hin)). }
    rewrite Hs'; apply IH, Hs.
Qed.

(** X5: [create_stocks] only looks at the feed records whose code is in
    [offer_ids]: dropping the others beforehand changes neither its result
    nor what it leaves in [offer_ids]; in particular an unlisted record with
    an unreadable quantity never makes it raise, and with no identifiers it
    returns [[]] whatever the feed. *)
Theorem create_stocks_reads_listed_only (feed : list watch) (ids : list string) :
  Seller.create_stocks feed ids
  = Seller.create_stocks (filter (fun w => py_in (py_str (code w)) ids) feed) ids /\
  (forall wh date, Market.create_stocks feed wh date ids
     = Market.create_stocks (filter (fun w => py_in (py_str (code w)) ids) feed)
         wh date ids) /\
  Seller.create_stocks feed [] = (Some [], []).
Proof.
  assert (H : forall ids, Seller.create_stocks feed ids
     = Seller.create_stocks (filter (fun w => py_in (py_str (code w)) ids) feed) ids).
  { intros l; unfold Seller.create_stocks, bind.
    rewrite (stocks_loop_listed feed l l) by (intros x Hx; exact Hx); reflexivity. }
  split; [apply H|split].
  - intros wh date; rewrite !market_create_stocks, H; reflexivity.
  - rewrite H; replace (filter _ feed) with (@nil watch); [reflexivity|].
    clear H; induction feed as [|w rest IH]; [reflexivity|exact IH].
Qed.

(** ** [download_stock] and the working directory *)

(** X6: [download_stock] never deletes a file other than "ostatki.xls":
    afterwards every other name is present exactly when it was there before
    or the extraction wrote it (every member of the archive, or the members
    written before the unzip failed); a failed request changes nothing; it
    raises when the unzip fails, and when neither the archive nor the
    directory holds "ostatki.xls". *)
Theorem download_stock_other_files (response : Download.extraction)
  (parsed : option (list watch)) (fs : list string) (f : string) :
  f <> Download.excel_file ->
  (In f (snd (Download.download_stock response parsed fs)) <->
   In f fs \/
   (exists written, response = Download.ExtractFailed written /\ In f written) \/
   (exists members, response = Download.Extracted members /\ In f members)) /\
  (response = Download.FetchFailed ->
   Download.download_stock response parsed fs = (None, fs)) /\
  (forall written, response = Download.ExtractFailed written ->
   fst (Download.download_stock response parsed fs) = None) /\
  (forall members, response = Download.Extracted members ->
     ~ In Download.excel_file (members ++ fs)%list ->
     fst (Download.download_stock response parsed fs) = None).
Proof.
  intros Hf; split; [|split; [|split]].
  - unfold Download.download_stock.
    destruct response as [|written|members].
    + cbn; split; [intros H; left; exact H|].
      intros [H|[[w [E _]]|[m [E _]]]]; [exact H|discriminate|discriminate].
    + cbn [snd]; rewrite in_app_iff; split.
      * intros [H|H]; [right; left; eauto|left; exact H].
      * intros [H|[[w [E H]]|[m [E _]]]]; [right; exact H| |discriminate].
        injection E as <-; left; exact H.
    + assert (Hm : In f (members ++ fs)%list <->
                   In f fs \/
                   (exists w, Download.Extracted members = Download.ExtractFailed w
                              /\ In f w) \/
                   (exists m, Download.Extracted members = Download.Extracted m
                              /\ In f m)).
      { rewrite in_app_iff; split.
        - intros [H|H]; [right; right; eauto|left; exact H].
        - intros [H|[[w [E _]]|[m [E H]]]]; [right; exact H|discriminate|].
          injection E as <-; left; exact H. }
      destruct (negb (py_in _ _)); [apply Hm|].
      destruct parsed; [|apply Hm]; cbn [snd].
      unfold Download.fs_remove; rewrite filter_In, <- Hm.
      destruct (String.eqb_spec f Download.excel_file); [contradiction|].
      cbn; split; [intros [H _]; exact H|intros H; split; [exact H|reflexivity]].
  - intros ->; reflexivity.
  - intros written ->; reflexivity.
  - intros members -> Hno; unfold Download.download_stock.
    rewrite (proj2 (py_in_false _ _) Hno); reflexivity.
Qed.

(** Witness of X6: an unzip failing after writing "a.txt", in a directory
    holding "notes.txt". *)
Lemma download_stock_other_files_witness :
  "a.txt" <> Download.excel_file /\
  Download.download_stock (Download.ExtractFailed ["a.txt"]) None ["notes.txt"]
  = (None, ["a.txt"; "notes.txt"]) /\
  In "a.txt" (snd (Download.download_stock (Download.ExtractFailed ["a.txt"]) None
                     ["notes.txt"])).
Proof.
  assert (Hf : "a.txt" <> Download.excel_file) by discriminate.
  split; [exact Hf|split; [reflexivity|]].
  apply (proj1 (download_stock_other_files (Download.ExtractFailed ["a.txt"]) None
                  ["notes.txt"] _ Hf)).
  right; left; exists ["a.txt"]; split; [reflexivity|now left].
Defined.

(** ** Paging without an end *)

(** X7: the Ozon [get_offer_ids] never returns when the server omits
    "total" from every answer, and the Yandex one never returns when every
    answer carries a non-empty [nextPageToken]: both keep requesting pages
    however many requests are allowed. *)
Theorem get_offer_ids_no_end :
  (forall server : nat -> string -> Ozon.page,
     (forall k tok, Ozon.total (server k tok) = None) ->
     forall fuel, Ozon.get_offer_ids server fuel = None) /\
  (forall server : nat -> option string -> Yandex.page,
     (forall k tok, exists t, Yandex.nextPageToken (server k tok) = Some t /\ t <> "") ->
     forall fuel, Yandex.get_offer_ids server fuel = None).
Proof.
  split; intros server H fuel.
  - apply (paging_stop_signal _ _ server Ozon.items Ozon.last_id
             Ozon.total_reached "").
    intros i _; unfold signal_at.
    destruct (paging_state _ _ _ _ i) as [tok acc].
    unfold Ozon.total_reached; rewrite H; reflexivity.
  - apply (paging_stop_signal _ _ server Yandex.offerMappingEntries
             Yandex.nextPageToken Yandex.no_more_pages (Some "")).
    intros i _; unfold signal_at.
    destruct (paging_state _ _ _ _ i) as [tok acc].
    unfold Yandex.no_more_pages.
    destruct (H i tok) as [t [-> Ht]].
    apply String.eqb_neq, Ht.
Qed.

(** Witness of X7: servers that never report a total / never stop paging. *)
Lemma get_offer_ids_no_end_witness :
  (forall k tok, Ozon.total (ozon_no_total k tok) = None) /\
  Ozon.get_offer_ids ozon_no_total 50 = None /\
  Yandex.get_offer_ids yandex_endless 50 = None.
Proof.
  assert (H1 : forall k tok, Ozon.total (ozon_no_total k tok) = None)
    by reflexivity.
  assert (H2 : forall k tok, exists t,
             Yandex.nextPageToken (yandex_endless k tok) = Some t /\ t <> "")
    by (intros k tok; exists "t"; split; [reflexivity|discriminate]).
  split; [exact H1|split].
  - exact (proj1 get_offer_ids_no_end ozon_no_total H1 50%nat).
  - exact (proj2 get_offer_ids_no_end yandex_endless H2 50%nat).
Defined.

(** ** Batches and the push loop *)

Lemma chunks_ok_bounds {A} (lst : list A) n cs :
  (0 < n)%nat -> chunks_ok lst n 0 cs ->
  Forall (fun c => c <> [] /\ (length c <= n)%nat) cs.
Proof.
  intros Hn (Hcat & Hlen & Hempty & Hlast & Hcount).
  rewrite Nat.sub_0_r in *.
  destruct cs as [|c cs']; [constructor|].
  assert (Hne : length lst <> 0%nat)
    by (intros E; specialize (Hempty E); discriminate).
  specialize (Hlast Hne).
  rewrite (@app_removelast_last _ (c :: cs') [] ltac:(discriminate)).
  apply Forall_app; split.
  - refine (Forall_impl _ _ Hlen); intros x Hx.
    split; [intros ->; cbn in Hx; lia|lia].
  - constructor; [|constructor].
    set (x := last (c :: cs') []) in *.
    pose proof (Nat.mod_upper_bound (length lst) n ltac:(lia)).
    destruct (Nat.eqb_spec (length lst mod n) 0) as [E|E];
      (split; [intros Hx; rewrite Hx in Hlast; cbn in Hlast; lia|lia]).
Qed.

(** [divide] with a positive size: chunks that give the list back, none
    empty, none longer than [n], ceil(len / n) of them. *)
Lemma divide_pos {A} (lst : list A) (n : Z) : 0 < n ->
  exists cs, Seller.divide lst n = Some cs /\ concat cs = lst /\
    Forall (fun c => c <> [] /\ (length c <= Z.to_nat n)%nat) cs /\
    length cs = ((length lst + Z.to_nat n - 1) / Z.to_nat n)%nat.
Proof.
  intros Hn.
  set (k := Z.to_nat n); assert (Ek : n = Z.of_nat k) by (unfold k; lia).
  clearbody k; subst n.
  unfold Seller.divide, Seller.py_range.
  destruct (Z.eqb_spec (Z.of_nat k) 0) as [|_]; [lia|]; cbn [option_map].
  eexists; split; [reflexivity|].
  replace (Z.to_nat (Z.abs (Z.of_nat (length lst) - 0))) with (length lst) by lia.
  pose proof (range_chunks lst k ltac:(lia) (length lst) 0 ltac:(lia)) as Hok.
  pose proof (chunks_ok_bounds lst k _ ltac:(lia) Hok) as Hb.
  destruct Hok as (Hcat & _ & _ & _ & Hcount).
  rewrite Nat.sub_0_r in Hcount.
  split; [exact Hcat|split; [exact Hb|exact Hcount]].
Qed.

Lemma divide_nil {A} (n : Z) : 0 < n -> Seller.divide (@nil A) n = Some [].
Proof.
  intros Hn; unfold Seller.divide, Seller.py_range.
  destruct (Z.eqb_spec n 0); [lia|]; reflexivity.
Qed.

(** What the push loop sent and why it ended. *)
Lemma push_batches_spec {A} ok (bs : list A) : forall k sent fine,
  push_batches ok k bs = (sent, fine) ->
  (fine = true -> sent = bs /\
     forall i, (i < length bs)%nat -> ok (k + i)%nat = true) /\
  (fine = false -> exists j, (j < length bs)%nat /\ sent = firstn (S j) bs /\
     ok (k + j)%nat = false /\ forall i, (i < j)%nat -> ok (k + i)%nat = true).
Proof.
  induction bs as [|b bs IH]; intros k sent fine H; cbn in H.
  - injection H as <- <-; split; [|discriminate].
    intros _; split; [reflexivity|intros i Hi; cbn in Hi; lia].
  - destruct (ok k) eqn:Ok.
    + destruct (push_batches ok (S k) bs) as [sent' fine'] eqn:E.
      injection H as <- <-.
      destruct (IH _ _ _ E) as [Ht Hf]; split.
      * intros Hfine; destruct (Ht Hfine) as [-> Hall]; split; [reflexivity|].
        intros i Hi; destruct i as [|i]; [rewrite Nat.add_0_r; exact Ok|].
        replace (k + S i)%nat with (S k + i)%nat by lia; apply Hall; cbn in Hi; lia.
      * intros Hfine; destruct (Hf Hfine) as (j & Hj & -> & Okj & Hb).
        exists (S j); split; [cbn; lia|split; [reflexivity|split]].
        -- replace (k + S j)%nat with (S k + j)%nat by lia; exact Okj.
        -- intros i Hi; destruct i as [|i]; [rewrite Nat.add_0_r; exact Ok|].
           replace (k + S i)%nat with (S k + i)%nat by lia; apply Hb; lia.
    + injection H as <- <-; split; [discriminate|intros _].
      exists 0%nat; split; [cbn; lia|split; [reflexivity|split]].
      * rewrite Nat.add_0_r; exact Ok.
      * intros i Hi; lia.
Qed.

Lemma push_batches_all_ok {A} ok (bs : list A) k :
  (forall i, ok i = true) -> push_batches ok k bs = (bs, true).
Proof.
  intros H; revert k; induction bs as [|b bs IH]; intros k; [reflexivity|].
  cbn; rewrite H, IH; reflexivity.
Qed.

Lemma push_batches_fail {A} ok (bs : list A) : forall k j,
  (j < length bs)%nat -> ok (k + j)%nat = false ->
  (forall i, (i < j)%nat -> ok (k + i)%nat = true) ->
  push_batches ok k bs = (firstn (S j) bs, false).
Proof.
  induction bs as [|b bs IH]; intros k j Hj Okj Hb; [cbn in Hj; lia|].
  cbn; destruct j as [|j].
  - rewrite Nat.add_0_r in Okj; rewrite Okj; reflexivity.
  - pose proof (Hb 0%nat ltac:(lia)) as Ok; rewrite Nat.add_0_r in Ok.
    rewrite Ok, (IH (S k) j); [reflexivity|cbn in Hj; lia| |].
    + replace (S k + j)%nat with (k + S j)%nat by lia; exact Okj.
    + intros i Hi; replace (S k + i)%nat with (k + S i)%nat by lia; apply Hb; lia.
Qed.

(** ** The Ozon upload functions *)

(** X8: when the Ozon [upload_stocks] returns, it has listed the
    identifiers, built the stocks and sent all of them, every entry once and
    in order, in non-empty batches of at most 100, each accepted; it returns
    [(not_empty, stocks)] where [not_empty] keeps the entries with a
    non-zero stock, each of which names the code of a feed record (an
    identifier missing from the feed never appears in it). *)
Theorem upload_stocks_sends_all (feed : list watch) (listed : option (list string))
  (ok : nat -> bool) (sent : list (list Seller.stock_entry))
  (res : list Seller.stock_entry * list Seller.stock_entry) :
  SellerRun.upload_stocks feed listed ok = (sent, Some res) ->
  exists ids stocks, listed = Some ids /\
    fst (Seller.create_stocks feed ids) = Some stocks /\
    res = (filter SellerRun.nonzero_stock stocks, stocks) /\
    concat sent = stocks /\
    Forall (fun b => b <> [] /\ (length b <= 100)%nat) sent /\
    (forall i, (i < length sent)%nat -> ok i = true) /\
    (forall e, In e (fst res) ->
       In (Seller.offer_id e) (codes feed) /\ Seller.stock e <> 0).
Proof.
  unfold SellerRun.upload_stocks.
  destruct listed as [ids|]; [|discriminate].
  destruct (Seller.create_stocks feed ids) as [r ids'] eqn:Ecs; cbn [fst].
  destruct r as [stocks|]; [|discriminate].
  destruct (divide_pos stocks 100 ltac:(lia)) as (bs & Hd & Hcat & Hb & _).
  rewrite Hd.
  destruct (push_batches ok 0 bs) as [sent' fine] eqn:Hp.
  destruct fine; [|discriminate].
  intros H; injection H as <- <-.
  destruct (proj1 (push_batches_spec _ _ _ _ _ Hp) eq_refl) as [-> Hall].
  exists ids, stocks; split; [reflexivity|split; [rewrite Ecs; reflexivity|]].
  split; [reflexivity|split; [exact Hcat|split; [exact Hb|split; [exact Hall|]]]].
  intros e He; cbn [fst] in He; apply filter_In in He as [He Hnz].
  unfold SellerRun.nonzero_stock in Hnz; apply negb_true_iff, Z.eqb_neq in Hnz.
  destruct (create_stocks_inv _ _ _ _ Ecs) as [ms [Hl ->]].
  apply in_app_or in He as [He|He].
  - split; [exact (stocks_loop_codes _ _ _ _ Hl e He)|exact Hnz].
  - apply in_map_iff in He as [i [<- _]]; cbn in Hnz; congruence.
Qed.

(** Witness of X8: the example feed, three listed identifiers, a network
    accepting everything. *)
Lemma upload_stocks_sends_all_witness :
  SellerRun.upload_stocks feed_ab (Some ["A"; "B"; "C"]) all_ok
  = ([[Seller.mk_stock "A" 100; Seller.mk_stock "B" 0; Seller.mk_stock "C" 0]],
     Some ([Seller.mk_stock "A" 100],
           [Seller.mk_stock "A" 100; Seller.mk_stock "B" 0; Seller.mk_stock "C" 0]))
  /\ exists ids, Some ["A"; "B"; "C"] = Some ids.
Proof.
  assert (H : SellerRun.upload_stocks feed_ab (Some ["A"; "B"; "C"]) all_ok
    = ([[Seller.mk_stock "A" 100; Seller.mk_stock "B" 0; Seller.mk_stock "C" 0]],
       Some ([Seller.mk_stock "A" 100],
             [Seller.mk_stock "A" 100; Seller.mk_stock "B" 0;
              Seller.mk_stock "C" 0]))) by reflexivity.
  split; [exact H|].
  destruct (upload_stocks_sends_all _ _ _ _ _ H) as (ids & _ & E & _).
  exists ids; exact E.
Defined.

(** X9: the Ozon [upload_stocks] stops at the first rejected request: when
    the batches are [bs] and request [j] is the first to fail, exactly the
    batches [0..j] have been sent, no later one, and the exception
    propagates (nothing is returned). *)
Theorem upload_stocks_stops_at_failure (feed : list watch) (ids : list string)
  (ok : nat -> bool) (stocks : list Seller.stock_entry)
  (bs : list (list Seller.stock_entry)) (j : nat) :
  fst (Seller.create_stocks feed ids) = Some stocks ->
  Seller.divide stocks 100 = Some bs ->
  (j < length bs)%nat -> ok j = false -> (forall i, (i < j)%nat -> ok i = true) ->
  SellerRun.upload_stocks feed (Some ids) ok = (firstn (S j) bs, None).
Proof.
  intros Hcs Hd Hj Okj Hb; unfold SellerRun.upload_stocks.
  rewrite Hcs, Hd, (push_batches_fail ok bs 0 j Hj Okj Hb); reflexivity.
Qed.

(** Witness of X9: 250 stock updates in three batches; the first request
    passes, the second fails, the third batch is never sent. *)
Lemma upload_stocks_stops_at_failure_witness :
  length batches_250 = 3%nat /\ first_ok 0 = true /\
  SellerRun.upload_stocks feed_ab (Some ("A" :: "B" :: ids_248)) first_ok
  = (firstn 2 batches_250, None).
Proof.
  split; [reflexivity|split; [reflexivity|]].
  apply (upload_stocks_stops_at_failure feed_ab ("A" :: "B" :: ids_248) first_ok
           stocks_250 batches_250 1).
  - vm_compute; reflexivity.
  - vm_compute; reflexivity.
  - cbn; lia.
  - reflexivity.
  - intros i Hi; replace i with 0%nat by lia; reflexivity.
Defined.

(** X10: when the Ozon [upload_prices] returns, it has sent the price
    entries of the listed feed records (one per record whose code is
    listed, in feed order), all of them once and in order, in non-empty
    batches of at most 1000, and returns that list. *)
Theorem upload_prices_sends_all (feed : list watch) (listed : option (list string))
  (ok : nat -> bool) (sent : list (list Seller.price_entry))
  (res : list Seller.price_entry) :
  SellerRun.upload_prices feed listed ok = (sent, Some res) ->
  exists ids, listed = Some ids /\
    res = map seller_price_of (filter (fun w => py_in (py_str (code w)) ids) feed) /\
    concat sent = res /\
    Forall (fun b => b <> [] /\ (length b <= 1000)%nat) sent.
Proof.
  unfold SellerRun.upload_prices.
  destruct listed as [ids|]; [|discriminate].
  rewrite seller_create_prices_filter; cbn [fst].
  set (prices := map seller_price_of _).
  destruct (divide_pos prices 1000 ltac:(lia)) as (bs & Hd & Hcat & Hb & _).
  rewrite Hd.
  destruct (push_batches ok 0 bs) as [sent' fine] eqn:Hp.
  destruct fine; [|discriminate].
  intros H; injection H as <- <-.
  destruct (proj1 (push_batches_spec _ _ _ _ _ Hp) eq_refl) as [-> _].
  exists ids; repeat split; assumption.
Qed.

(** Witness of X10: the example feed with "A" listed. *)
Lemma upload_prices_sends_all_witness :
  SellerRun.upload_prices feed_ab (Some ["A"]) all_ok
  = ([[Seller.mk_price "UNKNOWN" "RUB" "A" "0" "100"]],
     Some [Seller.mk_price "UNKNOWN" "RUB" "A" "0" "100"])
  /\ exists ids, Some ["A"] = Some ids.
Proof.
  assert (H : SellerRun.upload_prices feed_ab (Some ["A"]) all_ok
    = ([[Seller.mk_price "UNKNOWN" "RUB" "A" "0" "100"]],
       Some [Seller.mk_price "UNKNOWN" "RUB" "A" "0" "100"])) by reflexivity.
  split; [exact H|].
  destruct (upload_prices_sends_all _ _ _ _ _ H) as (ids & E & _).
  exists ids; exact E.
Defined.

(** ** The Ozon [main] *)

(** With distinct identifiers, [create_prices] on the list [create_stocks]
    left behind keeps no record. *)
Lemma prices_after_stocks feed ids st ids' :
  NoDup ids -> Seller.create_stocks feed ids = (Some st, ids') ->
  Seller.create_prices feed ids' = (Some [], ids').
Proof.
  intros Hnd H.
  destruct (create_stocks_inv _ _ _ _ H) as [ms [Hl _]].
  pose proof (stocks_loop_rest_NoDup _ _ _ _ Hnd Hl) as E.
  rewrite seller_create_prices_filter.
  destruct (filter (fun w => py_in (py_str (code w)) ids') feed) as [|w l] eqn:F;
    [reflexivity|exfalso].
  assert (Hw : In w (filter (fun w => py_in (py_str (code w)) ids') feed))
    by (rewrite F; now left).
  apply filter_In in Hw as [Hw Hin].
  apply py_in_In in Hin; rewrite E in Hin; apply filter_In in Hin as [_ Hin].
  assert (Hc : py_in (py_str (code w)) (codes feed) = true)
    by (apply py_in_In, (in_map (fun w => py_str (code w))), Hw).
  rewrite Hc in Hin; discriminate.
Qed.

(** X11: with distinct listed identifiers, the Ozon [main] never sends a
    price update: [create_prices] runs on the [offer_ids] list that
    [create_stocks] has just emptied of every matched identifier, so it
    keeps no record.  When the stocks are built and every request passes,
    [main] sends exactly the stock batches of 100 and ends normally. *)
Theorem seller_main_sends_no_prices (ids : list string) (feed : list watch)
  (ok : nat -> bool) :
  NoDup ids ->
  (forall r, In r (fst (SellerRun.main (Some ids) (Some feed) ok)) ->
     exists b, r = SellerRun.UpdateStocks b) /\
  (forall stocks, fst (Seller.create_stocks feed ids) = Some stocks ->
     (forall i, ok i = true) ->
     exists bs, Seller.divide stocks 100 = Some bs /\
       SellerRun.main (Some ids) (Some feed) ok
       = (map SellerRun.UpdateStocks bs, Completed)).
Proof.
  intros Hnd; unfold SellerRun.main.
  destruct (Seller.create_stocks feed ids) as [r ids'] eqn:Ecs.
  destruct r as [stocks|]; [|split; [intros r []|discriminate]].
  pose proof (prices_after_stocks _ _ _ _ Hnd Ecs) as Hp; rewrite Hp; cbn [fst].
  destruct (divide_pos stocks 100 ltac:(lia)) as (bs & Hd & _).
  rewrite Hd, (divide_nil 900 ltac:(lia)); cbn [push_batches].
  split.
  - destruct (push_batches ok 0 bs) as [sent fine].
    intros r Hr; destruct fine; cbn in Hr;
      [rewrite app_nil_r in Hr|];
      apply in_map_iff in Hr as [b [<- _]]; eauto.
  - intros st E Hok; injection E as <-.
    exists bs; split; [exact Hd|].
    rewrite (push_batches_all_ok ok bs 0 Hok); cbn; rewrite app_nil_r; reflexivity.
Qed.

(** Witness of X11: the example feed with identifiers "A", "B", "C". *)
Lemma seller_main_sends_no_prices_witness :
  NoDup ["A"; "B"; "C"] /\
  SellerRun.main (Some ["A"; "B"; "C"]) (Some feed_ab) all_ok
  = ([SellerRun.UpdateStocks [Seller.mk_stock "A" 100; Seller.mk_stock "B" 0;
                              Seller.mk_stock "C" 0]], Completed).
Proof.
  assert (Hnd : NoDup ["A"; "B"; "C"]).
  { repeat constructor; cbn; intuition discriminate. }
  split; [exact Hnd|].
  destruct (proj2 (seller_main_sends_no_prices _ feed_ab all_ok Hnd)
              [Seller.mk_stock "A" 100; Seller.mk_stock "B" 0; Seller.mk_stock "C" 0]
              eq_refl (fun _ => eq_refl)) as [bs [Hd E]].
  rewrite E; injection Hd as <-; reflexivity.
Defined.

(** ** The Yandex upload functions *)

Lemma not_empty_to_market wh date l :
  MarketRun.not_empty (map (to_market wh date) l)
  = Some (map (to_market wh date) (filter SellerRun.nonzero_stock l)).
Proof.
  induction l as [|e l IH]; [reflexivity|].
  cbn [map MarketRun.not_empty to_market Market.items]; rewrite IH.
  cbn [filter Market.count]; unfold SellerRun.nonzero_stock.
  destruct (negb (Seller.stock e =? 0)); reflexivity.
Qed.

(** X12: when the listing and [create_stocks] succeed and every request
    passes, the Yandex [upload_stocks] sends all the Yandex-shaped stock
    entries, once each and in order, in non-empty batches of at most 2000
    for the given campaign, and returns them with [not_empty] holding those
    whose single item has a non-zero count: the [items[0]] access never
    raises on what [create_stocks] builds. *)
Theorem market_upload_stocks_sends_all (feed : list watch) (ids : list string)
  (campaign_id wh date : string) (ok : nat -> bool)
  (sst : list Seller.stock_entry) :
  fst (Seller.create_stocks feed ids) = Some sst -> (forall i, ok i = true) ->
  exists bs,
    MarketRun.upload_stocks feed (Some ids) campaign_id wh date ok
    = (map (MarketRun.UpdateStocks campaign_id) bs,
       Some (map (to_market wh date) (filter SellerRun.nonzero_stock sst),
             map (to_market wh date) sst)) /\
    concat bs = map (to_market wh date) sst /\
    Forall (fun b => b <> [] /\ (length b <= 2000)%nat) bs.
Proof.
  intros Hcs Hok; unfold MarketRun.upload_stocks.
  rewrite market_create_stocks.
  destruct (Seller.create_stocks feed ids) as [r s] eqn:E; cbn [fst] in Hcs; subst r.
  cbn [option_map fst].
  destruct (divide_pos (map (to_market wh date) sst) 2000 ltac:(lia))
    as (bs & Hd & Hcat & Hb & _).
  rewrite Hd, (push_batches_all_ok ok bs 0 Hok), not_empty_to_market.
  exists bs; split; [reflexivity|split; assumption].
Qed.

(** Witness of X12: the example feed, three identifiers, campaign "c". *)
Lemma market_upload_stocks_sends_all_witness :
  fst (Seller.create_stocks feed_ab ["A"; "B"; "C"])
  = Some [Seller.mk_stock "A" 100; Seller.mk_stock "B" 0; Seller.mk_stock "C" 0] /\
  exists bs,
    MarketRun.upload_stocks feed_ab (Some ["A"; "B"; "C"]) "c" "w" "t" all_ok
    = (map (MarketRun.UpdateStocks "c") bs,
       Some (map (to_market "w" "t") [Seller.mk_stock "A" 100],
             map (to_market "w" "t")
               [Seller.mk_stock "A" 100; Seller.mk_stock "B" 0;
                Seller.mk_stock "C" 0])).
Proof.
  assert (H : fst (Seller.create_stocks feed_ab ["A"; "B"; "C"])
    = Some [Seller.mk_stock "A" 100; Seller.mk_stock "B" 0; Seller.mk_stock "C" 0])
    by reflexivity.
  split; [exact H|].
  destruct (market_upload_stocks_sends_all _ _ "c" "w" "t" _ _ H (fun _ => eq_refl))
    as [bs [E _]].
  exists bs; exact E.
Defined.

(** X13: the Yandex [upload_prices] raises before sending anything when a
    listed feed record has a price with no digit before its first "." (no
    partial price upload); when [create_prices] succeeds and every request
    passes, it sends all the price entries, once each and in order, in
    non-empty batches of at most 500, and returns them. *)
Theorem market_upload_prices_outcomes (feed : list watch) (ids : list string)
  (campaign_id : string) (ok : nat -> bool) :
  ((exists w, In w feed /\ py_in (py_str (code w)) ids = true /\
              Seller.price_conversion (price w) = "") ->
   MarketRun.upload_prices feed (Some ids) campaign_id ok = ([], None)) /\
  (forall ps, fst (Market.create_prices feed ids) = Some ps ->
     (forall i, ok i = true) ->
     exists bs,
       MarketRun.upload_prices feed (Some ids) campaign_id ok
       = (map (MarketRun.UpdatePrice campaign_id) bs, Some ps) /\
       concat bs = ps /\ Forall (fun b => b <> [] /\ (length b <= 500)%nat) bs).
Proof.
  split.
  - intros Hw; unfold MarketRun.upload_prices.
    destruct Hw as [w [Hw [Hin Hp]]].
    assert (Hn : fst (Market.create_prices feed ids) = None).
    { apply market_create_prices_none; exists w; split; [exact Hw|split; [exact Hin|]].
      rewrite Hp; reflexivity. }
    rewrite Hn; reflexivity.
  - intros ps Hps Hok; unfold MarketRun.upload_prices; rewrite Hps.
    destruct (divide_pos ps 500 ltac:(lia)) as (bs & Hd & Hcat & Hb & _).
    rewrite Hd, (push_batches_all_ok ok bs 0 Hok).
    exists bs; split; [reflexivity|split; assumption].
Qed.

(** Witness of X13: a listed record priced "руб.". *)
Lemma market_upload_prices_outcomes_witness :
  MarketRun.upload_prices [mk_watch (CStr "A") (CStr "5") "руб."] (Some ["A"]) "c"
    all_ok = ([], None).
Proof.
  apply (proj1 (market_upload_prices_outcomes _ _ "c" all_ok)).
  exists (mk_watch (CStr "A") (CStr "5") "руб."); split; [now left|].
  split; reflexivity.
Defined.

(** ** The Yandex [main] *)

Lemma campaign_stocks_only feed listed listed_prices cid wh date ok k t b :
  MarketRun.campaign feed listed listed_prices cid wh date ok k = (t, b) ->
  forall r, In r t -> exists bt, r = MarketRun.UpdateStocks cid bt.
Proof.
  unfold MarketRun.campaign.
  destruct listed as [ids|]; [|intros H; injection H as <- _; intros r []].
  destruct (fst (Market.create_stocks feed wh date ids)) as [stocks|];
    [|intros H; injection H as <- _; intros r []].
  destruct (Seller.divide stocks 2000) as [bs|];
    [|intros H; injection H as <- _; intros r []].
  destruct (push_batches ok k bs) as [sent fine].
  destruct (negb fine); intros H; injection H as <- _; intros r Hr;
    apply in_map_iff in Hr as [bt [<- _]]; eauto.
Qed.

Lemma campaign_all_ok feed ids listed_prices cid wh date ok k sst :
  fst (Seller.create_stocks feed ids) = Some sst -> (forall i, ok i = true) ->
  exists bs, Seller.divide (map (to_market wh date) sst) 2000 = Some bs /\
    MarketRun.campaign feed (Some ids) listed_prices cid wh date ok k
    = (map (MarketRun.UpdateStocks cid) bs, true).
Proof.
  intros Hcs Hok; unfold MarketRun.campaign.
  rewrite market_create_stocks.
  destruct (Seller.create_stocks feed ids) as [r s] eqn:E; cbn [fst] in Hcs; subst r.
  cbn [option_map fst].
  destruct (divide_pos (map (to_market wh date) sst) 2000 ltac:(lia)) as (bs & Hd & _).
  rewrite Hd, (push_batches_all_ok ok bs k Hok).
  exists bs; split; reflexivity.
Qed.

(** X14: the Yandex [main] never sends a price update: its two
    [upload_prices(...)] calls lack [await], so they only build coroutine
    objects whose bodies never run.  A failing [download_stock] escapes
    [main] (it is called outside the [try] block); when the feed, both
    listings and both [create_stocks] succeed and every request passes,
    [main] sends the FBS stock batches of at most 2000, then the DBS ones,
    and ends normally. *)
Theorem market_main_sends_no_prices (feed : option (list watch))
  (lf lfp ld ldp : option (list string)) (cf cd wf wd df dd : string)
  (ok : nat -> bool) :
  (forall r, In r (fst (MarketRun.main feed lf lfp ld ldp cf cd wf wd df dd ok)) ->
     exists c b, r = MarketRun.UpdateStocks c b) /\
  (feed = None -> MarketRun.main feed lf lfp ld ldp cf cd wf wd df dd ok = ([], Raised)) /\
  (forall fd ids1 ids2 s1 s2,
     feed = Some fd -> lf = Some ids1 -> ld = Some ids2 ->
     fst (Seller.create_stocks fd ids1) = Some s1 ->
     fst (Seller.create_stocks fd ids2) = Some s2 ->
     (forall i, ok i = true) ->
     exists b1 b2,
       Seller.divide (map (to_market wf df) s1) 2000 = Some b1 /\
       Seller.divide (map (to_market wd dd) s2) 2000 = Some b2 /\
       MarketRun.main feed lf lfp ld ldp cf cd wf wd df dd ok
       = ((map (MarketRun.UpdateStocks cf) b1 ++ map (MarketRun.UpdateStocks cd) b2)%list,
          Completed)).
Proof.
  split; [|split].
  - unfold MarketRun.main; destruct feed as [fd|]; [|intros r []].
    destruct (MarketRun.campaign fd lf lfp cf wf df ok 0) as [t1 f1] eqn:E1.
    destruct (negb f1).
    + intros r Hr; destruct (campaign_stocks_only _ _ _ _ _ _ _ _ _ _ E1 r Hr) as [b ->].
      eauto.
    + destruct (MarketRun.campaign fd ld ldp cd wd dd ok (length t1)) as [t2 f2] eqn:E2.
      intros r Hr; cbn [fst] in Hr; apply in_app_or in Hr as [Hr|Hr].
      * destruct (campaign_stocks_only _ _ _ _ _ _ _ _ _ _ E1 r Hr) as [b ->]; eauto.
      * destruct (campaign_stocks_only _ _ _ _ _ _ _ _ _ _ E2 r Hr) as [b ->]; eauto.
  - intros ->; reflexivity.
  - intros fd ids1 ids2 s1 s2 -> -> -> H1 H2 Hok.
    destruct (campaign_all_ok fd ids1 lfp cf wf df ok 0 s1 H1 Hok) as [b1 [Hd1 E1]].
    destruct (campaign_all_ok fd ids2 ldp cd wd dd ok
                (length (map (MarketRun.UpdateStocks cf) b1)) s2 H2 Hok)
      as [b2 [Hd2 E2]].
    exists b1, b2; split; [exact Hd1|split; [exact Hd2|]].
    unfold MarketRun.main; rewrite E1; cbn [negb]; rewrite E2; reflexivity.
Qed.

(** Witness of X14: the example feed, both campaigns listing "A", "B". *)
Lemma market_main_sends_no_prices_witness :
  exists b1 b2,
    MarketRun.main (Some feed_ab) (Some ["A"; "B"]) None (Some ["A"; "B"]) None
      "fbs" "dbs" "w1" "w2" "t1" "t2" all_ok
    = ((map (MarketRun.UpdateStocks "fbs") b1 ++ map (MarketRun.UpdateStocks "dbs") b2)%list,
       Completed).
Proof.
  destruct (proj2 (proj2 (market_main_sends_no_prices (Some feed_ab) (Some ["A"; "B"])
              None (Some ["A"; "B"]) None "fbs" "dbs" "w1" "w2" "t1" "t2" all_ok))
              feed_ab ["A"; "B"] ["A"; "B"]
              [Seller.mk_stock "A" 100; Seller.mk_stock "B" 0]
              [Seller.mk_stock "A" 100; Seller.mk_stock "B" 0]
              eq_refl eq_refl eq_refl eq_refl eq_refl (fun _ => eq_refl))
    as (b1 & b2 & _ & _ & E).
  exists b1, b2; exact E.
Defined.
